(** * Object-tracker demo script (main.py): shallow embedding and properties

    The script is a straight-line program around one [while True] loop.  All
    of its calls go to external libraries (video decoding, the tracker, the
    GUI), so the embedding threads an explicit [World] through the script:
    the world holds what the outside will answer (the frames of the video
    file, the tracker's state, the keys that [waitKey] will report) and a log
    of the external calls performed so far.  *)

From Stdlib Require Import ZArith QArith String Ascii Bool List Lia.
Import ListNotations.
Local Open Scope string_scope.
Local Open Scope list_scope.
Local Open Scope Z_scope.

(** ** Data *)

(** A bounding box is the 4-tuple [(x, y, w, h)].  Its components are
    numbers: integers in the literal [bbox = (1300, 405, 160, 120)] and in
    the boxes of [cv2.TrackerKCF] and [cv2.TrackerGOTURN], fractional values
    in the boxes of the [cv2.legacy] trackers.  They are rationals here, the
    integers among them. *)
Definition BBox : Type := (Q * Q * Q * Q)%type.

Definition Point : Type := (Z * Z)%type.
Definition Color : Type := (Z * Z * Z)%type.

(** What the drawing calls leave on an image. *)
Inductive Overlay : Type :=
| Rectangle (p1 p2 : Point) (color : Color) (thickness lineType : Z)
| Text (txt : string) (org : Point) (fontFace fontScale : Z) (color : Color)
       (thickness : Z).

(** A decoded image: which picture it is, whether its colour channels have
    been swapped, and the overlays drawn on it so far (oldest first). *)
Record Frame : Type := mkFrame {
  image : nat;
  swapped : bool;
  overlays : list Overlay
}.

Definition draw (o : Overlay) (frame : Frame) : Frame :=
  mkFrame (image frame) (swapped frame) (overlays frame ++ [o]).

(** [int(...)] of a number: truncation toward zero. *)
Definition int (q : Q) : Z := Z.quot (Qnum q) (Z.pos (Qden q)).

Definition FONT_HERSHEY_SIMPLEX : Z := 0.

(** [drawRectangle(frame, bbox)] *)
Definition drawRectangle (frame : Frame) (bbox : BBox) : Frame :=
  let '(b0, b1, b2, b3) := bbox in
  let p1 := (int b0, int b1) in
  let p2 := (int (b0 + b2)%Q, int (b1 + b3)%Q) in
  draw (Rectangle p1 p2 (255, 0, 0) 2 1) frame.

(** [drawText(frame, txt, location, color=(50, 170, 50))] *)
Definition default_color : Color := (50, 170, 50).

Definition drawText (frame : Frame) (txt : string) (location : Point)
  (color : Color) : Frame :=
  draw (Text txt location FONT_HERSHEY_SIMPLEX 1 color 3) frame.

(** [cv2.cvtColor(frame, cv2.COLOR_RGB2BGR)] *)
Definition cvtColor_RGB2BGR (frame : Frame) : Frame :=
  mkFrame (image frame) (negb (swapped frame)) (overlays frame).

(** ** Tracker selection *)

Inductive TrackerKind : Type :=
| TrackerBoosting | TrackerMIL | TrackerKCF | TrackerCSRT
| TrackerTLD | TrackerMedianFlow | TrackerGOTURN | TrackerMOSSE.

Definition tracker_types : list string :=
  [ "BOOSTING"; "MIL"; "KCF"; "CSRT"; "TLD"; "MEDIANFLOW"; "GOTURN"; "MOSSE" ].

(** [tracker_type = tracker_types[6]] *)
Definition tracker_type : string := nth 6 tracker_types "".

(** The [if]/[elif]/[else] chain that creates the tracker. *)
Definition create_tracker (tracker_type : string) : TrackerKind :=
  if String.eqb tracker_type "BOOSTING" then TrackerBoosting
  else if String.eqb tracker_type "MIL" then TrackerMIL
  else if String.eqb tracker_type "KCF" then TrackerKCF
  else if String.eqb tracker_type "CSRT" then TrackerCSRT
  else if String.eqb tracker_type "TLD" then TrackerTLD
  else if String.eqb tracker_type "MEDIANFLOW" then TrackerMedianFlow
  else if String.eqb tracker_type "GOTURN" then TrackerGOTURN
  else TrackerMOSSE.

(** ** External calls *)

Inductive Event : Type :=
| ECreate (k : TrackerKind)
| EVideoCapture (path : string)
| ERead (got : option Frame)
| EIsOpened (r : bool)
| EPrint (s : string)
| EExit
| ENamedWindow (name : string)
| EResizeWindow (name : string) (w h : Z)
| EPltFigure (w h : Z)
| EPltImshow (frame : Frame)
| EPltAxis (arg : string)
| EInit (frame : Frame) (bbox : BBox)
| EUpdate (frame : Frame) (ok : bool) (bbox : BBox)
| EImshow (name : string) (frame : Frame)
| EWaitKey (delay key : Z)
| ESleep (millis : Z)
| ERelease
| EDestroyAllWindows.

Definition is_read (e : Event) : bool :=
  match e with ERead _ => true | _ => false end.
Definition is_init (e : Event) : bool :=
  match e with EInit _ _ => true | _ => false end.
Definition is_update (e : Event) : bool :=
  match e with EUpdate _ _ _ => true | _ => false end.
Definition is_imshow (e : Event) : bool :=
  match e with EImshow _ _ => true | _ => false end.
Definition is_capture (e : Event) : bool :=
  match e with EVideoCapture _ => true | _ => false end.
Definition is_namedWindow (e : Event) : bool :=
  match e with ENamedWindow _ => true | _ => false end.
Definition is_release (e : Event) : bool :=
  match e with ERelease => true | _ => false end.
Definition is_destroy (e : Event) : bool :=
  match e with EDestroyAllWindows => true | _ => false end.

Definition count (p : Event -> bool) (l : list Event) : nat :=
  length (filter p l).

(** [ord(c)] *)
Definition ord (c : ascii) : Z := Z.of_nat (nat_of_ascii c).

(** The quit test of the loop: [key & 0xFF == ord("q")]. *)
Definition is_quit (key : Z) : bool := Z.land key 255 =? ord "q"%char.

(** Control flow leaving one pass through the loop body. *)
Inductive Flow : Type := Continue | Break.

Section Script.

(** The tracker is an opaque stateful object: [init] and [update] transform
    its state and report a flag; [update] also reports a box. *)
Variable TState : Type.
Variable tracker_init : TState -> Frame -> BBox -> bool * TState.
Variable tracker_update : TState -> Frame -> bool * BBox * TState.

Record World : Type := mkWorld {
  opened : bool;            (* could the capture open the file *)
  frame_width : Z;          (* CAP_PROP_FRAME_WIDTH, reported as a float *)
  frame_height : Z;         (* CAP_PROP_FRAME_HEIGHT, reported as a float *)
  frames : list Frame;      (* frames not decoded yet *)
  tstate : TState;          (* the tracker object *)
  keys : list Z;            (* what the coming waitKey calls return *)
  log : list Event          (* external calls so far, newest first *)
}.

Definition emit (e : Event) (w : World) : World :=
  mkWorld (opened w) (frame_width w) (frame_height w) (frames w) (tstate w)
          (keys w) (e :: log w).

(** [video.read()]: [(True, frame)] is [Some frame], [(False, None)] is
    [None].  A capture that did not open yields nothing. *)
Definition video_read (w : World) : option Frame * World :=
  match opened w, frames w with
  | true, f :: rest =>
      (Some f,
       mkWorld (opened w) (frame_width w) (frame_height w) rest (tstate w)
               (keys w) (ERead (Some f) :: log w))
  | _, _ => (None, emit (ERead None) w)
  end.

Definition video_isOpened (w : World) : bool * World :=
  (opened w, emit (EIsOpened (opened w)) w).

(** [tracker.init(frame, bbox)] *)
Definition do_init (frame : Frame) (bbox : BBox) (w : World) : bool * World :=
  let '(ok, t) := tracker_init (tstate w) frame bbox in
  (ok,
   mkWorld (opened w) (frame_width w) (frame_height w) (frames w) t (keys w)
           (EInit frame bbox :: log w)).

(** [tracker.update(frame)] *)
Definition do_update (frame : Frame) (w : World) : bool * BBox * World :=
  let '(ok, bbox, t) := tracker_update (tstate w) frame in
  (ok, bbox,
   mkWorld (opened w) (frame_width w) (frame_height w) (frames w) t (keys w)
           (EUpdate frame ok bbox :: log w)).

(** [cv2.waitKey(delay)]: the next key code, [-1] when no key is pending. *)
Definition waitKey (delay : Z) (w : World) : Z * World :=
  match keys w with
  | k :: rest =>
      (k,
       mkWorld (opened w) (frame_width w) (frame_height w) (frames w)
               (tstate w) rest (EWaitKey delay k :: log w))
  | [] => (-1, emit (EWaitKey delay (-1)) w)
  end.

(** [displayRectangle(frame, bbox)].  The frame may be [None] (a failed
    read); then [frame.copy()] raises and the result is [inr]. *)
Definition displayRectangle (frame : option Frame) (bbox : BBox) (w : World)
  : World + World :=
  let w := emit (EPltFigure 20 10) w in
  match frame with
  | None => inr w
  | Some frame =>
      let frameCopy := frame in
      let frameCopy := drawRectangle frameCopy bbox in
      let frameCopy := cvtColor_RGB2BGR frameCopy in
      let w := emit (EPltImshow frameCopy) w in
      inl (emit (EPltAxis "off") w)
  end.

(** One pass through the body of [while True]. *)
Definition body (bbox : BBox) (w : World) : Flow * BBox * World :=
  let '(r, w) := video_read w in
  match r with
  | None => (Break, bbox, w)
  | Some frame =>
      let '(ok, bbox, w) := do_update frame w in
      let frame :=
        if ok then drawRectangle frame bbox
        else drawText frame "Tracking failure detected" (80, 140) (0, 0, 255)
      in
      let frame :=
        drawText frame (tracker_type ++ " Tracker")%string (80, 60) default_color in
      let w := emit (EImshow "Frame" frame) w in
      let '(key, w) := waitKey 1 w in
      if is_quit key then (Break, bbox, w)
      else (Continue, bbox, emit (ESleep 50) w)
  end.

(** [while True: body].  [None] means the fuel ran out. *)
Fixpoint loop (fuel : nat) (bbox : BBox) (w : World) : option (BBox * World) :=
  match fuel with
  | O => None
  | S fuel =>
      match body bbox w with
      | (Break, bbox, w) => Some (bbox, w)
      | (Continue, bbox, w) => loop fuel bbox w
      end
  end.

(** How the script ends. *)
Inductive Outcome : Type :=
| Finished (bbox : BBox) (w : World)   (* ran to its last line *)
| Exited (w : World)                   (* [exit()] *)
| Raised (w : World).                  (* uncaught exception *)

Definition seed_bbox : BBox := (1300, 405, 160, 120)%Q.

(** The statements after the loop. *)
Definition cleanup (w : World) : World :=
  let w := emit ERelease w in
  let w := emit EDestroyAllWindows w in
  let w := emit ERelease w in
  emit EDestroyAllWindows w.

(** The script from "Initialize tracker" to its last line. *)
Definition main (fuel : nat) (w : World) : option Outcome :=
  let w := emit (ECreate (create_tracker tracker_type)) w in
  let w := emit (EVideoCapture "race_car.mp4") w in
  let '(frame, w) := video_read w in
  let '(o, w) := video_isOpened w in
  if negb o then
    let w := emit (EPrint "Error opening video file") w in
    Some (Exited (emit EExit w))
  else
    let width := int (inject_Z (frame_width w)) in
    let height := int (inject_Z (frame_height w)) in
    let w := emit (ENamedWindow "Object Tracker") w in
    let w := emit (EResizeWindow "Object Tracker" (width / 2) (height / 2)) w in
    let bbox := seed_bbox in
    match displayRectangle frame bbox w with
    | inr w => Some (Raised w)
    | inl w =>
        match frame with
        | None => Some (Raised w)     (* not reached: the copy raised *)
        | Some frame =>
            let '(_, w) := do_init frame bbox w in
            match loop fuel bbox w with
            | None => None
            | Some (bbox, w) => Some (Finished bbox (cleanup w))
            end
        end
    end.

Definition final_world (o : Outcome) : World :=
  match o with Finished _ w => w | Exited w => w | Raised w => w end.

(** The external calls of a run, oldest first. *)
Definition trace (o : Outcome) : list Event := rev (log (final_world o)).

End Script.

Arguments mkWorld {TState}.
Arguments opened {TState}.
Arguments frame_width {TState}.
Arguments frame_height {TState}.
Arguments frames {TState}.
Arguments tstate {TState}.
Arguments keys {TState}.
Arguments log {TState}.
Arguments emit {TState}.
Arguments video_read {TState}.
Arguments video_isOpened {TState}.
Arguments do_init {TState}.
Arguments do_update {TState}.
Arguments waitKey {TState}.
Arguments displayRectangle {TState}.
Arguments body {TState}.
Arguments loop {TState}.
Arguments cleanup {TState}.
Arguments main {TState}.
Arguments Finished {TState}.
Arguments Exited {TState}.
Arguments Raised {TState}.
Arguments final_world {TState}.
Arguments trace {TState}.

(** ** Vocabulary of the properties *)

(** The frame that [cv2.imshow] receives in an iteration whose update
    returned [(ok, bbox)] for the decoded frame [frame]. *)
Definition annotated (frame : Frame) (ok : bool) (bbox : BBox) : Frame :=
  drawText
    (if ok then drawRectangle frame bbox
     else drawText frame "Tracking failure detected" (80, 140) (0, 0, 255))
    (tracker_type ++ " Tracker")%string (80, 60) default_color.

Definition failure_text : Overlay :=
  Text "Tracking failure detected" (80, 140) FONT_HERSHEY_SIMPLEX 1 (0, 0, 255) 3.

Definition label_text : Overlay :=
  Text "GOTURN Tracker" (80, 60) FONT_HERSHEY_SIMPLEX 1 (50, 170, 50) 3.

Definition is_rectangle (o : Overlay) : bool :=
  match o with Rectangle _ _ _ _ _ => true | Text _ _ _ _ _ _ => false end.

(** The key the next [waitKey] call reports. *)
Definition next_key {TState} (w : World TState) : Z := fst (waitKey 1 w).

(** No pending key is the quit key. *)
Definition never_quit (ks : list Z) : Prop :=
  Forall (fun k => is_quit k = false) ks.

(** Frames the loop displayed, oldest first. *)
Definition shown (tr : list Event) : list Frame :=
  flat_map (fun e => match e with EImshow _ fr => [fr] | _ => [] end) tr.

(** Number of [video.read()] calls that precede the first [tracker.init]. *)
Fixpoint reads_before_init (tr : list Event) : nat :=
  match tr with
  | [] => O
  | EInit _ _ :: _ => O
  | ERead _ :: tr => S (reads_before_init tr)
  | _ :: tr => reads_before_init tr
  end.

(** The frame handed to the first [tracker.init]. *)
Fixpoint init_frame (tr : list Event) : option Frame :=
  match tr with
  | [] => None
  | EInit f _ :: _ => Some f
  | _ :: tr => init_frame tr
  end.

(** What a pass that reads frame [f] appends to the log (newest first). *)
Definition pass_log (quit : bool) (key : Z) (f : Frame) (ok : bool) (bb : BBox)
  : list Event :=
  (if quit then [] else [ESleep 50]) ++
  [EWaitKey 1 key; EImshow "Frame" (annotated f ok bb); EUpdate f ok bb;
   ERead (Some f)].

(** The calls a pass of the loop can make, for a source holding [fs]. *)
Definition pass_event {TState} (update : TState -> Frame -> bool * BBox * TState)
  (fs : list Frame) (e : Event) : Prop :=
  match e with
  | ERead r => match r with Some f => In f fs | None => True end
  | EWaitKey delay _ => delay = 1
  | ESleep millis => millis = 50
  | EUpdate f ok bb => In f fs /\ exists t, fst (update t f) = (ok, bb)
  | EImshow name fr =>
      name = "Frame" /\
      exists f ok bb,
        In f fs /\ fr = annotated f ok bb /\ exists t, fst (update t f) = (ok, bb)
  | _ => False
  end.

(** The calls made before the loop when the file opened and its first frame
    is [f0] (oldest first). *)
Definition prologue {TState} (w : World TState) (f0 : Frame) : list Event :=
  [ ECreate TrackerGOTURN; EVideoCapture "race_car.mp4"; ERead (Some f0);
    EIsOpened true; ENamedWindow "Object Tracker";
    EResizeWindow "Object Tracker" (frame_width w / 2) (frame_height w / 2);
    EPltFigure 20 10;
    EPltImshow (cvtColor_RGB2BGR (drawRectangle f0 seed_bbox));
    EPltAxis "off"; EInit f0 seed_bbox ].

(** The calls made after the loop (oldest first). *)
Definition epilogue : list Event :=
  [ ERelease; EDestroyAllWindows; ERelease; EDestroyAllWindows ].

(** *** The loop as a recursion over the frames left

    The same passes as [loop], written by recursion on the frames that the
    source still holds; [loop] is proved to agree with it. *)

(** The calls of the loop (oldest first), for tracker state [t], frames
    [fs] left in the source and pending keys [ks]. *)
Fixpoint passes {TState} (update : TState -> Frame -> bool * BBox * TState)
  (t : TState) (fs : list Frame) (ks : list Z) : list Event :=
  match fs with
  | [] => [ERead None]
  | f :: fs' =>
      let '(ok, bb, t') := update t f in
      [ ERead (Some f); EUpdate f ok bb; EImshow "Frame" (annotated f ok bb);
        EWaitKey 1 (hd (-1) ks) ] ++
      (if is_quit (hd (-1) ks) then []
       else ESleep 50 :: passes update t' fs' (tl ks))
  end.

(** How many frames the loop reads, updates on and displays. *)
Fixpoint npasses (fs : list Frame) (ks : list Z) : nat :=
  match fs with
  | [] => O
  | _ :: fs' => if is_quit (hd (-1) ks) then 1%nat else S (npasses fs' (tl ks))
  end.

(** Did the loop end on the quit key (rather than on the end of the stream). *)
Fixpoint quits (fs : list Frame) (ks : list Z) : bool :=
  match fs with
  | [] => false
  | _ :: fs' => if is_quit (hd (-1) ks) then true else quits fs' (tl ks)
  end.

(** What one update leaves: the tracker's new state and the new value of the
    bounding-box variable. *)
Definition step {TState} (update : TState -> Frame -> bool * BBox * TState)
  (s : TState * BBox) (f : Frame) : TState * BBox :=
  let '(_, bb, t') := update (fst s) f in (t', bb).

(** Frames handed to [tracker.update], oldest first. *)
Definition updated (tr : list Event) : list Frame :=
  flat_map (fun e => match e with EUpdate f _ _ => [f] | _ => [] end) tr.

(** Names of the windows that [cv2.imshow] was asked to draw in. *)
Definition shown_in (tr : list Event) : list string :=
  flat_map (fun e => match e with EImshow name _ => [name] | _ => [] end) tr.

(** Names of the windows created by [cv2.namedWindow]. *)
Definition created (tr : list Event) : list string :=
  flat_map (fun e => match e with ENamedWindow name => [name] | _ => [] end) tr.

(** Sizes given to [cv2.resizeWindow]. *)
Definition resized (tr : list Event) : list (string * Z * Z) :=
  flat_map (fun e => match e with
                     | EResizeWindow name a b => [(name, a, b)]
                     | _ => []
                     end) tr.

Definition is_waitKey (e : Event) : bool :=
  match e with EWaitKey _ _ => true | _ => false end.
Definition is_sleep (e : Event) : bool :=
  match e with ESleep _ => true | _ => false end.
Definition is_create (e : Event) : bool :=
  match e with ECreate _ => true | _ => false end.


(** The frames that [cv2.imshow] receives when the passes run over the
    frames [fs], the tracker starting in state [t]. *)
Fixpoint displays {TState} (update : TState -> Frame -> bool * BBox * TState)
  (t : TState) (fs : list Frame) : list Frame :=
  match fs with
  | [] => []
  | f :: fs' =>
      let '(ok, bb, t') := update t f in
      annotated f ok bb :: displays update t' fs'
  end.


(** [cv2.rectangle] takes the coordinates of its corners as C [int]s. *)
Definition fits_int (z : Z) : Prop := - 2 ^ 31 <= z < 2 ^ 31.

(** A box whose rectangle [cv2.rectangle] accepts. *)
Definition drawable (bb : BBox) : Prop :=
  let '(x, y, wd, ht) := bb in
  fits_int (int x) /\ fits_int (int y) /\
  fits_int (int (x + wd)%Q) /\ fits_int (int (y + ht)%Q).

(** A tracker whose successful updates only report drawable boxes. *)
Definition reports_drawable {TState}
  (update : TState -> Frame -> bool * BBox * TState) : Prop :=
  forall t f, fst (fst (update t f)) = true -> drawable (snd (fst (update t f))).

(** The calls after which the script reads no further frame: a read that
    returns nothing, or a poll that sees the quit key. *)
Definition stops (e : Event) : bool :=
  match e with
  | ERead None => true
  | EWaitKey _ key => is_quit key
  | _ => false
  end.

(** The calls that take a frame on: reads, tracker calls, displays in the
    window, polls and sleeps. *)
Definition works (e : Event) : bool :=
  match e with
  | ERead _ | EInit _ _ | EUpdate _ _ _ | EImshow _ _ | EWaitKey _ _
  | ESleep _ => true
  | _ => false
  end.



(** A tracker whose every update reports failure. *)
Definition always_fails {TState}
  (update : TState -> Frame -> bool * BBox * TState) : Prop :=
  forall t f, fst (fst (update t f)) = false.

(** ** Stub trackers and sample sources *)

(** Always succeeds and returns the same box. *)
Definition stub_init (t : unit) (_ : Frame) (_ : BBox) : bool * unit := (true, t).
Definition stub_ok (box : BBox) (t : unit) (_ : Frame) : bool * BBox * unit :=
  (true, box, t).

(** Always fails; the box it reports is [box]. *)
Definition stub_fail (box : BBox) (t : unit) (_ : Frame) : bool * BBox * unit :=
  (false, box, t).

(** A stub that reports failure and the box (0, 0, 0, 0). *)
Definition lost : unit -> Frame -> bool * BBox * unit :=
  stub_fail (0, 0, 0, 0)%Q.

(** A stub that always succeeds with the seed box. *)
Definition steady : unit -> Frame -> bool * BBox * unit := stub_ok seed_bbox.

(** A freshly decoded frame: no overlay yet. *)
Definition raw (n : nat) : Frame := mkFrame n false [].

(** A 1920x1080 file that opened, with the given frames and pending keys. *)
Definition source (fs : list Frame) (ks : list Z) : World unit :=
  mkWorld true 1920 1080 fs tt ks [].

(** A file that could not be opened. *)
Definition missing : World unit := mkWorld false 0 0 [] tt [] [].

(** ** Properties *)

Section Properties.

Variable TState : Type.
Variable init : TState -> Frame -> BBox -> bool * TState.
Variable update : TState -> Frame -> bool * BBox * TState.

Implicit Types (w : World TState) (b bbox : BBox) (f frame : Frame) (fuel : nat).

(** *** Truncation *)

Lemma int_inject_Z (z : Z) : int (inject_Z z) = z.
Proof. unfold int. simpl. apply Z.quot_1_r. Qed.


(** *** The quit test *)

Lemma is_quit_mod (key : Z) : is_quit key = (key mod 256 =? 113).
Proof.
  unfold is_quit. change 255 with (Z.ones 8).
  rewrite Z.land_ones by lia. reflexivity.
Qed.

(** *** The primitives, field by field *)

Lemma video_read_none w :
  fst (video_read w) = None -> video_read w = (None, emit (ERead None) w).
Proof.
  unfold video_read. destruct (opened w); [destruct (frames w)|];
    simpl; intros H; try reflexivity; discriminate.
Qed.

Lemma video_read_some w f w1 :
  video_read w = (Some f, w1) ->
  opened w = true /\
  frames w = f :: frames w1 /\
  opened w1 = true /\ keys w1 = keys w /\ tstate w1 = tstate w /\
  log w1 = ERead (Some f) :: log w.
Proof.
  unfold video_read. destruct (opened w); [destruct (frames w) as [|f' rest]|];
    simpl; intros H; inversion H; subst; simpl; repeat split; reflexivity.
Qed.

Lemma video_read_opened w f rest :
  opened w = true -> frames w = f :: rest ->
  video_read w =
    (Some f,
     mkWorld true (frame_width w) (frame_height w) rest (tstate w) (keys w)
             (ERead (Some f) :: log w)).
Proof. unfold video_read. intros -> ->. reflexivity. Qed.

Lemma video_read_exhausted w :
  frames w = [] -> video_read w = (None, emit (ERead None) w).
Proof. unfold video_read. intros ->. destruct (opened w); reflexivity. Qed.

Lemma do_update_fields f w1 ok bb w2 :
  do_update update f w1 = (ok, bb, w2) ->
  update (tstate w1) f = (ok, bb, tstate w2) /\
  opened w2 = opened w1 /\ frames w2 = frames w1 /\ keys w2 = keys w1 /\
  log w2 = EUpdate f ok bb :: log w1.
Proof.
  unfold do_update.
  destruct (update (tstate w1) f) as [[ok' bb'] t].
  intros H; inversion H; subst; simpl; repeat split; reflexivity.
Qed.

Lemma waitKey_fields delay w :
  log (snd (waitKey delay w)) = EWaitKey delay (fst (waitKey delay w)) :: log w /\
  opened (snd (waitKey delay w)) = opened w /\
  frames (snd (waitKey delay w)) = frames w /\
  tstate (snd (waitKey delay w)) = tstate w /\
  keys (snd (waitKey delay w)) = tl (keys w).
Proof.
  destruct w as [o wd ht fs t ks l]. unfold waitKey. simpl.
  destruct ks; simpl; repeat split; reflexivity.
Qed.

Lemma next_key_emit e w : next_key (emit e w) = next_key w.
Proof. unfold next_key, waitKey. simpl. destruct (keys w); reflexivity. Qed.

Lemma next_key_keys w w' : keys w = keys w' -> next_key w = next_key w'.
Proof. unfold next_key, waitKey. intros ->. destruct (keys w'); reflexivity. Qed.

(** *** One pass through the body *)

Lemma body_read_fails b w :
  fst (video_read w) = None -> body update b w = (Break, b, emit (ERead None) w).
Proof.
  intros H. unfold body. rewrite (video_read_none w H). reflexivity.
Qed.

Lemma body_read_ok b w f w1 ok bb w2 :
  video_read w = (Some f, w1) ->
  do_update update f w1 = (ok, bb, w2) ->
  let w3 := emit (EImshow "Frame" (annotated f ok bb)) w2 in
  body update b w =
    if is_quit (next_key w)
    then (Break, bb, snd (waitKey 1 w3))
    else (Continue, bb, emit (ESleep 50) (snd (waitKey 1 w3))).
Proof.
  intros Hr Hu w3. unfold body. rewrite Hr.
  rewrite Hu. fold (annotated f ok bb). fold w3.
  assert (Hk : next_key w = fst (waitKey 1 w3)).
  { destruct (video_read_some _ _ _ Hr) as (_ & _ & _ & K1 & _).
    destruct (do_update_fields _ _ _ _ _ Hu) as (_ & _ & _ & K2 & _).
    unfold w3. fold (next_key (emit (EImshow "Frame" (annotated f ok bb)) w2)).
    rewrite next_key_emit. apply next_key_keys. congruence. }
  rewrite Hk. destruct (waitKey 1 w3) as [key w4]. simpl.
  destruct (is_quit key); reflexivity.
Qed.

Lemma body_reads b w fl b1 w1 f w0 :
  video_read w = (Some f, w0) ->
  body update b w = (fl, b1, w1) ->
  exists ok,
    update (tstate w) f = (ok, b1, tstate w1) /\
    fl = (if is_quit (next_key w) then Break else Continue) /\
    opened w = true /\ opened w1 = true /\
    frames w = f :: frames w1 /\ keys w1 = tl (keys w) /\
    log w1 = pass_log (is_quit (next_key w)) (next_key w) f ok b1 ++ log w.
Proof.
  intros Hr Hb.
  destruct (do_update update f w0) as [[ok bb] w2] eqn:Hu.
  pose proof (body_read_ok b w f w0 ok bb w2 Hr Hu) as E. cbv zeta in E.
  rewrite Hb in E.
  destruct (video_read_some _ _ _ Hr) as (O & F & O1 & K1 & T1 & L1).
  destruct (do_update_fields _ _ _ _ _ Hu) as (U & O2 & F2 & K2 & L2).
  destruct (waitKey_fields 1 (emit (EImshow "Frame" (annotated f ok bb)) w2))
    as (L4 & O4 & F4 & T4 & K4).
  assert (Hk : fst (waitKey 1 (emit (EImshow "Frame" (annotated f ok bb)) w2))
               = next_key w).
  { fold (next_key (emit (EImshow "Frame" (annotated f ok bb)) w2)).
    rewrite next_key_emit. apply next_key_keys. congruence. }
  rewrite Hk in L4. simpl in L4, O4, F4, T4, K4.
  exists ok. unfold pass_log.
  destruct (is_quit (next_key w)); inversion E; subst; simpl;
    rewrite ?L4, ?O4, ?F4, ?T4, ?K4, ?L2, ?L1;
    repeat split; congruence.
Qed.

Lemma loop_step fuel b w :
  loop update (S fuel) b w =
    match body update b w with
    | (Break, b1, w1) => Some (b1, w1)
    | (Continue, b1, w1) => loop update fuel b1 w1
    end.
Proof. reflexivity. Qed.

(** *** The loop *)

(** A property of the world kept by every pass is kept by the loop. *)
Lemma loop_invariant (P : World TState -> Prop) :
  (forall b w, P w -> P (snd (body update b w))) ->
  forall fuel b w b' w', P w -> loop update fuel b w = Some (b', w') -> P w'.
Proof.
  intros Hbody. induction fuel as [|fuel IH]; intros b w b' w' HP H.
  - discriminate.
  - rewrite loop_step in H. specialize (Hbody b w HP).
    destruct (body update b w) as [[[|] b1] w1]; simpl in Hbody.
    + exact (IH _ _ _ _ Hbody H).
    + inversion H; subst; assumption.
Qed.

(** The loop ends: each pass that continues has consumed a frame. *)
Lemma loop_total fuel : forall b w,
  (length (frames w) < fuel)%nat -> exists b' w', loop update fuel b w = Some (b', w').
Proof.
  induction fuel as [|fuel IH]; intros b w Hlt; [lia|].
  rewrite loop_step.
  destruct (body update b w) as [[fl b1] w1] eqn:Hb.
  destruct fl; [|eauto].
  destruct (video_read w) as [[f|] w0] eqn:Hr.
  - destruct (body_reads _ _ _ _ _ _ _ Hr Hb) as (ok & _ & _ & _ & _ & F & _).
    apply IH. rewrite F in Hlt. simpl in Hlt. lia.
  - rewrite body_read_fails in Hb by (rewrite Hr; reflexivity). discriminate.
Qed.

(** How a pass ends with [Break]: on a failed read or on the quit key. *)
Lemma body_break b w b1 w1 :
  body update b w = (Break, b1, w1) ->
  (fst (video_read w) = None /\ b1 = b /\ log w1 = ERead None :: log w) \/
  (exists f, fst (video_read w) = Some f /\ is_quit (next_key w) = true /\
             exists rest, log w1 = EWaitKey 1 (next_key w) :: rest).
Proof.
  intros Hb. destruct (video_read w) as [[f|] w0] eqn:Hr.
  - right. exists f. split; [reflexivity|].
    destruct (body_reads _ _ _ _ _ _ _ Hr Hb) as (ok & _ & Hfl & _ & _ & _ & _ & L).
    destruct (is_quit (next_key w)); [|discriminate].
    split; [reflexivity|]. simpl in L. eauto.
  - left. rewrite body_read_fails in Hb by (rewrite Hr; reflexivity).
    inversion Hb; subst. auto.
Qed.

Lemma count_app p (l1 l2 : list Event) :
  count p (l1 ++ l2) = (count p l1 + count p l2)%nat.
Proof. unfold count. rewrite filter_app, length_app. reflexivity. Qed.

Lemma never_quit_next w :
  never_quit (keys w) ->
  is_quit (next_key w) = false /\ never_quit (tl (keys w)).
Proof.
  unfold never_quit, next_key, waitKey. destruct (keys w) as [|k ks]; simpl.
  - intros _. split; [reflexivity | constructor].
  - intros H. inversion H; subst. auto.
Qed.

(** With no quit key pending, the loop makes one full pass per frame left
    in the source, then one more read, which fails. *)
Lemma loop_never_quit fuel : forall b w,
  opened w = true -> never_quit (keys w) ->
  (length (frames w) < fuel)%nat ->
  exists b' w',
    loop update fuel b w = Some (b', w') /\ frames w' = [] /\
    count is_update (log w') = (count is_update (log w) + length (frames w))%nat /\
    count is_imshow (log w') = (count is_imshow (log w) + length (frames w))%nat /\
    count is_read (log w') = (count is_read (log w) + length (frames w) + 1)%nat.
Proof.
  induction fuel as [|fuel IH]; intros b w Ho Hk Hlt; [lia|].
  rewrite loop_step.
  destruct (frames w) as [|f rest] eqn:Hf.
  - rewrite body_read_fails
      by (rewrite (video_read_exhausted w Hf); reflexivity).
    exists b, (emit (ERead None) w). simpl. rewrite Hf.
    unfold count. simpl. repeat split; lia.
  - pose proof (video_read_opened w f rest Ho Hf) as Hr.
    destruct (body update b w) as [[fl b1] w1] eqn:Hb.
    destruct (body_reads _ _ _ _ _ _ _ Hr Hb)
      as (ok & _ & Hfl & _ & O1 & F1 & K1 & L1).
    destruct (never_quit_next w Hk) as [Hq Hk'].
    rewrite Hq in Hfl, L1. subst fl.
    rewrite Hf in F1. injection F1 as F1.
    destruct (IH b1 w1 O1) as (b' & w' & Hl & Fe & Cu & Ci & Cr).
    { rewrite K1. exact Hk'. }
    { rewrite <- F1. simpl in Hlt. lia. }
    exists b', w'. rewrite Hl, Cu, Ci, Cr, L1, <- F1, !count_app.
    unfold pass_log, count. simpl. repeat split; auto; lia.
Qed.

(** The log only grows in the loop, by calls a pass can make, and the
    frames left are a suffix of the frames there were. *)
Lemma loop_log fuel b w b' w' :
  loop update fuel b w = Some (b', w') ->
  exists new used,
    log w' = new ++ log w /\ frames w = used ++ frames w' /\
    Forall (pass_event update (frames w)) new.
Proof.
  apply (loop_invariant
           (fun w' => exists new used,
                log w' = new ++ log w /\ frames w = used ++ frames w' /\
                Forall (pass_event update (frames w)) new)).
  - clear. intros b w1 (new & used & L & F & E).
    destruct (body update b w1) as [[fl b1] w2] eqn:Hb. simpl.
    destruct (video_read w1) as [[f|] w0] eqn:Hr.
    + destruct (body_reads _ _ _ _ _ _ _ Hr Hb)
        as (ok & U & _ & _ & _ & F1 & _ & L1).
      exists (pass_log (is_quit (next_key w1)) (next_key w1) f ok b1 ++ new),
             (used ++ [f]).
      assert (Hin : In f (frames w)).
      { rewrite F, F1. apply in_or_app. right. left. reflexivity. }
      rewrite L1, L, F, F1, <- !app_assoc. repeat split.
      rewrite <- F1, <- F. apply Forall_app. split; [|exact E].
      unfold pass_log. apply Forall_app. split.
      * destruct (is_quit (next_key w1)); repeat constructor.
      * repeat constructor; simpl; auto.
        -- exists f, ok, b1. repeat split; auto.
           exists (tstate w1). rewrite U. reflexivity.
        -- exists (tstate w1). rewrite U. reflexivity.
    + rewrite body_read_fails in Hb by (rewrite Hr; reflexivity).
      inversion Hb; subst. exists (ERead None :: new), used.
      simpl. rewrite L. repeat split; auto. constructor; simpl; auto.
  - exists [], []. repeat split. constructor.
Qed.

(** The script up to the loop, when the file opened and holds a frame. *)
Lemma main_opened fuel w f0 rest :
  opened w = true -> frames w = f0 :: rest ->
  exists w0,
    opened w0 = true /\ frames w0 = rest /\ keys w0 = keys w /\
    tstate w0 = snd (init (tstate w) f0 seed_bbox) /\
    log w0 = rev (prologue w f0) ++ log w /\
    main init update fuel w =
      match loop update fuel seed_bbox w0 with
      | None => None
      | Some (b, w') => Some (Finished b (cleanup w'))
      end.
Proof.
  destruct w as [o wd ht fs t ks l]. simpl. intros -> ->.
  destruct (init t f0 seed_bbox) as [ok0 t0] eqn:Hi.
  exists (mkWorld true wd ht rest t0 ks
            (rev (prologue (mkWorld true wd ht (f0 :: rest) t ks l) f0) ++ l)).
  simpl. repeat split.
  unfold main, video_read, video_isOpened, displayRectangle, do_init, emit.
  cbn -[int]. rewrite Hi, !int_inject_Z. reflexivity.
Qed.

Lemma cleanup_log w : log (cleanup w) = rev epilogue ++ log w.
Proof. reflexivity. Qed.

(** A run on a file that opened and holds a frame finishes normally. *)
Lemma main_finishes fuel w f0 rest :
  opened w = true -> frames w = f0 :: rest -> (length rest < fuel)%nat ->
  exists w0 b wl new,
    opened w0 = true /\ frames w0 = rest /\ keys w0 = keys w /\
    tstate w0 = snd (init (tstate w) f0 seed_bbox) /\
    log w0 = rev (prologue w f0) ++ log w /\
    loop update fuel seed_bbox w0 = Some (b, wl) /\
    main init update fuel w = Some (Finished b (cleanup wl)) /\
    log wl = new ++ log w0 /\ Forall (pass_event update rest) new.
Proof.
  intros Ho Hf Hlt.
  destruct (main_opened fuel w f0 rest Ho Hf) as (w0 & O & F & K & T & L & M).
  destruct (loop_total fuel seed_bbox w0) as (b & wl & Hl).
  { rewrite F. exact Hlt. }
  destruct (loop_log _ _ _ _ _ Hl) as (new & used & Ln & _ & E).
  rewrite F in E. rewrite Hl in M.
  exists w0, b, wl, new. repeat split; assumption.
Qed.

(** *** Displayed frames and counts of calls *)

Lemma shown_app l1 l2 : shown (l1 ++ l2) = shown l1 ++ shown l2.
Proof. apply flat_map_app. Qed.

Lemma shown_pass q k f ok bb :
  shown (rev (pass_log q k f ok bb)) = [annotated f ok bb].
Proof. destruct q; reflexivity. Qed.


Lemma annotated_fail f bb :
  overlays (annotated f false bb) = overlays f ++ [failure_text; label_text].
Proof. simpl. rewrite <- app_assoc. reflexivity. Qed.

Lemma shown_pass_events fs new :
  Forall (pass_event update fs) new ->
  Forall (fun fr => exists f ok bb,
              In f fs /\ fr = annotated f ok bb /\
              exists t, fst (update t f) = (ok, bb))
         (shown (rev new)).
Proof.
  induction 1 as [|e new He _ IH]; simpl; [constructor|].
  rewrite shown_app. apply Forall_app. split; [exact IH|].
  destruct e; simpl in *; try constructor; try constructor.
  destruct He as [_ He]. exact He.
Qed.

Lemma count_pass_events fs new p :
  (forall e, pass_event update fs e -> p e = false) ->
  Forall (pass_event update fs) new -> count p new = 0%nat.
Proof.
  intros Hp. unfold count. induction 1 as [|e new He _ IH]; simpl; [reflexivity|].
  rewrite (Hp e He). exact IH.
Qed.

(** A pass opens, creates, initializes and releases nothing. *)
Lemma pass_events_acquire_nothing fs new :
  Forall (pass_event update fs) new ->
  count is_capture new = 0%nat /\ count is_namedWindow new = 0%nat /\
  count is_release new = 0%nat /\ count is_destroy new = 0%nat /\
  count is_init new = 0%nat.
Proof.
  intros E.
  repeat split; apply (count_pass_events fs new); try exact E;
    intros e H; destruct e; simpl in H |- *; try reflexivity; contradiction.
Qed.


(** The two ways the script stops before the loop. *)
Lemma main_not_opened fuel w :
  opened w = false ->
  main init update fuel w =
    Some (Exited
            (mkWorld false (frame_width w) (frame_height w) (frames w) (tstate w)
               (keys w)
               (EExit :: EPrint "Error opening video file" :: EIsOpened false
                  :: ERead None :: EVideoCapture "race_car.mp4"
                  :: ECreate TrackerGOTURN :: log w))).
Proof.
  destruct w as [o wd ht fs t ks l]. simpl. intros ->.
  unfold main, video_read, video_isOpened, emit. simpl. reflexivity.
Qed.

Lemma main_no_frame fuel w :
  opened w = true -> frames w = [] ->
  exists w', main init update fuel w = Some (Raised w').
Proof.
  destruct w as [o wd ht fs t ks l]. simpl. intros -> ->.
  unfold main, video_read, video_isOpened, displayRectangle, emit. simpl. eauto.
Qed.

Lemma main_no_frame_trace fuel w :
  opened w = true -> frames w = [] ->
  exists w',
    main init update fuel w = Some (Raised w') /\
    log w' =
      [ EPltFigure 20 10;
        EResizeWindow "Object Tracker" (frame_width w / 2) (frame_height w / 2);
        ENamedWindow "Object Tracker"; EIsOpened true; ERead None;
        EVideoCapture "race_car.mp4"; ECreate TrackerGOTURN ] ++ log w.
Proof.
  destruct w as [o wd ht fs t ks l]. simpl. intros -> ->.
  eexists. split.
  - unfold main, video_read, video_isOpened, displayRectangle, emit.
    cbn -[int]. rewrite !int_inject_Z. reflexivity.
  - reflexivity.
Qed.

Lemma shown_prologue w f0 : shown (prologue w f0) = [].
Proof. reflexivity. Qed.

Lemma rev_fresh_log (l : list Event) : rev (rev l ++ []) = l.
Proof. rewrite (app_nil_r (rev l)). apply rev_involutive. Qed.

(** *** Tracker selection *)

(** C10: every tracker-kind string other than "BOOSTING", "MIL", "KCF",
    "CSRT", "TLD", "MEDIANFLOW" and "GOTURN" falls through to the final
    [else] branch, which creates the MOSSE tracker; nothing is rejected. *)
Theorem unrecognized_kind_selects_mosse (kind : string) :
  kind <> "BOOSTING" -> kind <> "MIL" -> kind <> "KCF" -> kind <> "CSRT" ->
  kind <> "TLD" -> kind <> "MEDIANFLOW" -> kind <> "GOTURN" ->
  create_tracker kind = TrackerMOSSE.
Proof.
  intros H1 H2 H3 H4 H5 H6 H7. unfold create_tracker.
  apply String.eqb_neq in H1, H2, H3, H4, H5, H6, H7.
  rewrite H1, H2, H3, H4, H5, H6, H7. reflexivity.
Qed.

(** *** Leaving the loop *)

(** *** The bounding-box variable *)

(** C2 (as the code has it): a pass that reads a frame rebinds the
    bounding-box variable to the box the tracker's update returned, whatever
    the flag; the variable keeps its value only in the pass whose read
    fails. *)
Theorem bbox_rebound_by_every_update :
  (forall b w f w1 ok bb w2,
      video_read w = (Some f, w1) ->
      do_update update f w1 = (ok, bb, w2) ->
      snd (fst (body update b w)) = bb) /\
  (forall b w,
      fst (video_read w) = None -> snd (fst (body update b w)) = b).
Proof.
  split.
  - intros b w f w1 ok bb w2 Hr Hu.
    pose proof (body_read_ok b w f w1 ok bb w2 Hr Hu) as E. cbv zeta in E.
    rewrite E. destruct (is_quit (next_key w)); reflexivity.
  - intros b w Hn. rewrite (body_read_fails b w Hn). reflexivity.
Qed.

(** *** How many passes *)

(** C9: when the source holds nothing after the seed frame, the first read
    in the loop fails, the loop ends at once, and the run finishes with no
    tracker update and the seed box unchanged. *)
Theorem no_later_frame_no_update fuel w f0 :
  opened w = true -> frames w = [f0] -> log w = [] -> (0 < fuel)%nat ->
  (forall b w0, frames w0 = [] ->
                loop update fuel b w0 = Some (b, emit (ERead None) w0)) /\
  exists w',
    main init update fuel w = Some (Finished seed_bbox w') /\
    count is_update (log w') = 0%nat /\
    count is_imshow (log w') = 0%nat.
Proof.
  intros Ho Hf Hl Hfuel.
  assert (Hloop : forall b w0, frames w0 = [] ->
                    loop update fuel b w0 = Some (b, emit (ERead None) w0)).
  { intros b w0 Hf0. destruct fuel as [|n]; [lia|].
    rewrite loop_step, body_read_fails; [reflexivity|].
    rewrite (video_read_exhausted w0 Hf0). reflexivity. }
  split; [exact Hloop|].
  destruct (main_opened fuel w f0 [] Ho Hf) as (w0 & _ & F & _ & _ & L & M).
  rewrite (Hloop seed_bbox w0 F) in M.
  exists (cleanup (emit (ERead None) w0)). split; [exact M|].
  rewrite cleanup_log. simpl. rewrite L, Hl. split; reflexivity.
Qed.

(** C1 (as the code has it): with no quit key, a run on a source of
    [1 + length rest] frames finishes after one full pass -- one tracker
    update, one displayed frame -- for each frame that follows the seed
    frame; the seed frame, consumed by the read before the loop, gets none,
    and the source is left empty. *)
Theorem one_pass_per_frame_after_seed fuel w f0 rest :
  opened w = true -> frames w = f0 :: rest -> log w = [] ->
  never_quit (keys w) -> (length rest < fuel)%nat ->
  exists b w',
    main init update fuel w = Some (Finished b w') /\
    count is_update (log w') = length rest /\
    count is_imshow (log w') = length rest /\
    length (frames w) = S (count is_update (log w')) /\
    count is_read (log w') = S (length (frames w)) /\
    frames w' = [].
Proof.
  intros Ho Hf Hl Hk Hlt.
  destruct (main_opened fuel w f0 rest Ho Hf) as (w0 & O & F & K & _ & L & M).
  destruct (loop_never_quit fuel seed_bbox w0 O) as (b & wl & Hloop & Fe & Cu & Ci & Cr).
  { rewrite K. exact Hk. }
  { rewrite F. exact Hlt. }
  rewrite Hloop in M. exists b, (cleanup wl). split; [exact M|].
  rewrite cleanup_log, !count_app, Cu, Ci, Cr, L, Hl, F, Hf.
  unfold count. simpl. repeat split; try lia. exact Fe.
Qed.

(** *** What is drawn on a displayed frame *)


(** *** The two error conditions *)

(** C5: when the file does not open the script prints the error and exits,
    having made no tracker init and no tracker update; a failed update does
    not end the loop (only the quit key ends that pass), and whatever flags
    the tracker reports, a run with no quit key finishes normally after an
    update for every frame that follows the seed frame. *)
Theorem open_failure_exits_update_failure_goes_on :
  (forall fuel w,
      opened w = false -> log w = [] ->
      exists w',
        main init update fuel w = Some (Exited w') /\
        rev (log w') =
          [ ECreate TrackerGOTURN; EVideoCapture "race_car.mp4"; ERead None;
            EIsOpened false; EPrint "Error opening video file"; EExit ] /\
        count is_init (log w') = 0%nat /\ count is_update (log w') = 0%nat) /\
  (forall b w f w1 bb w2,
      video_read w = (Some f, w1) ->
      do_update update f w1 = (false, bb, w2) ->
      is_quit (next_key w) = false ->
      fst (fst (body update b w)) = Continue) /\
  (forall fuel w f0 rest,
      opened w = true -> frames w = f0 :: rest -> log w = [] ->
      never_quit (keys w) -> (length rest < fuel)%nat ->
      exists b w',
        main init update fuel w = Some (Finished b w') /\
        count is_update (log w') = length rest).
Proof.
  split; [|split].
  - intros fuel w Ho Hl. rewrite (main_not_opened fuel w Ho), Hl.
    eexists. split; [reflexivity|]. simpl. repeat split; reflexivity.
  - intros b w f w1 bb w2 Hr Hu Hq.
    pose proof (body_read_ok b w f w1 false bb w2 Hr Hu) as E. cbv zeta in E.
    rewrite E, Hq. reflexivity.
  - intros fuel w f0 rest Ho Hf Hl Hk Hlt.
    destruct (main_opened fuel w f0 rest Ho Hf) as (w0 & O & F & K & _ & L & M).
    destruct (loop_never_quit fuel seed_bbox w0 O)
      as (b & wl & Hloop & _ & Cu & _).
    { rewrite K. exact Hk. }
    { rewrite F. exact Hlt. }
    rewrite Hloop in M. exists b, (cleanup wl). split; [exact M|].
    rewrite cleanup_log, count_app, Cu, L, Hl, F. reflexivity.
Qed.

(** *** Acquiring and releasing *)

(** C6 (what the code does): on every run that reaches the end of the
    script the capture is opened once and one window is created once, but
    [video.release()] is called twice and [cv2.destroyAllWindows()] is called
    twice. *)
Theorem normal_exit_releases_twice fuel w b w' :
  log w = [] ->
  main init update fuel w = Some (Finished b w') ->
  count is_capture (log w') = 1%nat /\ count is_namedWindow (log w') = 1%nat /\
  count is_release (log w') = 2%nat /\ count is_destroy (log w') = 2%nat.
Proof.
  intros Hl M.
  destruct (opened w) eqn:Ho.
  2:{ rewrite (main_not_opened fuel w Ho) in M. discriminate. }
  destruct (frames w) as [|f0 rest] eqn:Hf.
  { destruct (main_no_frame fuel w Ho Hf) as (wr & Hr). congruence. }
  destruct (main_opened fuel w f0 rest Ho Hf) as (w0 & _ & _ & _ & _ & L & M').
  rewrite M' in M.
  destruct (loop update fuel seed_bbox w0) as [[b1 wl]|] eqn:Hloop; [|discriminate].
  inversion M; subst b1 w'.
  destruct (loop_log _ _ _ _ _ Hloop) as (new & _ & Ln & _ & E).
  destruct (pass_events_acquire_nothing _ _ E) as (C1 & C2 & C3 & C4 & _).
  rewrite cleanup_log, Ln, L, Hl, !count_app, C1, C2, C3, C4.
  repeat split; reflexivity.
Qed.

(** *** Reads before the loop *)

(** C7 (as the code has it): before the loop the script calls
    [video.read()] once, and the tracker is initialized with the frame that
    this single read returned, together with the seed box. *)
Theorem single_read_before_init fuel w f0 rest :
  opened w = true -> frames w = f0 :: rest -> log w = [] ->
  (length rest < fuel)%nat ->
  exists b w' later,
    main init update fuel w = Some (Finished b w') /\
    trace (Finished b w') = prologue w f0 ++ later /\
    reads_before_init (trace (Finished b w')) = 1%nat /\
    init_frame (trace (Finished b w')) = Some f0.
Proof.
  intros Ho Hf Hl Hlt.
  destruct (main_finishes fuel w f0 rest Ho Hf Hlt)
    as (w0 & b & wl & new & _ & _ & _ & _ & L & _ & M & Ln & _).
  exists b, (cleanup wl), (rev new ++ epilogue). split; [exact M|].
  assert (T : trace (Finished b (cleanup wl)) = prologue w f0 ++ rev new ++ epilogue).
  { unfold trace. simpl final_world.
    rewrite cleanup_log, Ln, L, Hl.
    rewrite (rev_app_distr (rev epilogue)), (rev_app_distr new).
    rewrite rev_fresh_log, rev_involutive, <- app_assoc. reflexivity. }
  rewrite T. repeat split; reflexivity.
Qed.

(** *** The loop against its recursion over the frames *)

Lemma next_key_hd w : next_key w = hd (-1) (keys w).
Proof. unfold next_key, waitKey. destruct (keys w); reflexivity. Qed.

Lemma skipn_S_tl {A} n (l : list A) : skipn (S n) l = skipn n (tl l).
Proof. destruct l; simpl; [destruct n|]; reflexivity. Qed.

Lemma passes_cons t f fs ks ok bb t' :
  update t f = (ok, bb, t') ->
  passes update t (f :: fs) ks =
    [ ERead (Some f); EUpdate f ok bb; EImshow "Frame" (annotated f ok bb);
      EWaitKey 1 (hd (-1) ks) ] ++
    (if is_quit (hd (-1) ks) then []
     else ESleep 50 :: passes update t' fs (tl ks)).
Proof. intros H. simpl. rewrite H. reflexivity. Qed.

Lemma step_eq t b f ok bb t' :
  update t f = (ok, bb, t') -> step update (t, b) f = (t', bb).
Proof. unfold step. simpl. intros ->. reflexivity. Qed.

(** On an opened source the loop makes the calls of [passes], consumes
    [npasses] frames and keys, and leaves the tracker state and the box that
    the updates on those frames produce one after the other. *)
Lemma loop_passes fuel : forall b w,
  opened w = true -> (length (frames w) < fuel)%nat ->
  exists b' w',
    loop update fuel b w = Some (b', w') /\
    log w' = rev (passes update (tstate w) (frames w) (keys w)) ++ log w /\
    (tstate w', b') =
      fold_left (step update) (firstn (npasses (frames w) (keys w)) (frames w))
                (tstate w, b) /\
    frames w' = skipn (npasses (frames w) (keys w)) (frames w) /\
    keys w' = skipn (npasses (frames w) (keys w)) (keys w).
Proof.
  induction fuel as [|fuel IH]; intros b w Ho Hlt; [lia|].
  rewrite loop_step.
  destruct (frames w) as [|f rest] eqn:Hf.
  - rewrite body_read_fails
      by (rewrite (video_read_exhausted w Hf); reflexivity).
    exists b, (emit (ERead None) w). simpl. rewrite Hf. repeat split.
  - pose proof (video_read_opened w f rest Ho Hf) as Hr.
    destruct (body update b w) as [[fl b1] w1] eqn:Hb.
    destruct (body_reads _ _ _ _ _ _ _ Hr Hb)
      as (ok & U & Hfl & _ & O1 & F1 & K1 & L1).
    rewrite Hf in F1. injection F1 as F1.
    rewrite (passes_cons _ _ _ _ _ _ _ U).
    rewrite next_key_hd in Hfl, L1.
    cbn [npasses]. destruct (is_quit (hd (-1) (keys w))) eqn:Hq; subst fl.
    + exists b1, w1. split; [reflexivity|]. split; [exact L1|].
      cbn [firstn fold_left]. rewrite (step_eq _ b _ _ _ _ U).
      split; [reflexivity|]. split; [symmetry; exact F1|].
      rewrite K1. destruct (keys w); reflexivity.
    + destruct (IH b1 w1 O1) as (b' & w' & Hl & Lw & St & Fw & Kw).
      { rewrite <- F1. simpl in Hlt. lia. }
      exists b', w'. split; [exact Hl|].
      rewrite <- F1, K1 in *.
      split.
      { rewrite Lw, L1. unfold pass_log. simpl.
        rewrite <- !app_assoc. reflexivity. }
      cbn [firstn fold_left]. rewrite (step_eq _ b _ _ _ _ U).
      split; [exact St|]. split; [exact Fw|].
      rewrite skipn_S_tl. exact Kw.
Qed.

(** A run on a file that opened and holds a frame, call by call. *)
Lemma main_passes fuel w f0 rest :
  opened w = true -> frames w = f0 :: rest -> log w = [] ->
  (length rest < fuel)%nat ->
  let t0 := snd (init (tstate w) f0 seed_bbox) in
  let n := npasses rest (keys w) in
  exists b w',
    main init update fuel w = Some (Finished b w') /\
    rev (log w') = prologue w f0 ++ passes update t0 rest (keys w) ++ epilogue /\
    (tstate w', b) = fold_left (step update) (firstn n rest) (t0, seed_bbox) /\
    frames w' = skipn n rest /\ keys w' = skipn n (keys w).
Proof.
  intros Ho Hf Hl Hlt t0 n.
  destruct (main_opened fuel w f0 rest Ho Hf) as (w0 & O & F & K & T & L & M).
  destruct (loop_passes fuel seed_bbox w0 O) as (b & wl & Hloop & Lw & St & Fw & Kw).
  { rewrite F. exact Hlt. }
  rewrite Hloop in M. rewrite F, K, T in *.
  exists b, (cleanup wl). split; [exact M|].
  split; [|split; [exact St | split; [exact Fw | exact Kw]]].
  rewrite cleanup_log, Lw, L, Hl.
  rewrite (rev_app_distr (rev epilogue)), (rev_app_distr (rev (passes _ _ _ _))).
  rewrite rev_fresh_log, !rev_involutive, <- app_assoc. reflexivity.
Qed.

(** *** Counting the calls of the passes *)

Ltac by_passes fs IH :=
  induction fs as [|f fs IH]; intros t ks;
  [ try reflexivity
  | cbn [passes npasses quits];
    destruct (update t f) as [[ok bb] t'];
    destruct (is_quit (hd (-1) ks)) ].

Lemma passes_updates fs : forall t ks,
  count is_update (passes update t fs ks) = npasses fs ks /\
  count is_imshow (passes update t fs ks) = npasses fs ks /\
  count is_waitKey (passes update t fs ks) = npasses fs ks.
Proof.
  by_passes fs IH.
  - repeat split.
  - repeat split.
  - destruct (IH t' (tl ks)) as (H1 & H2 & H3).
    rewrite !count_app. unfold count in *. simpl. rewrite H1, H2, H3.
    repeat split.
Qed.

Lemma passes_reads_sleeps fs : forall t ks,
  count is_read (passes update t fs ks)
  = (npasses fs ks + (if quits fs ks then 0 else 1))%nat /\
  (count is_sleep (passes update t fs ks) + (if quits fs ks then 1 else 0))%nat
  = npasses fs ks.
Proof.
  by_passes fs IH.
  - split; reflexivity.
  - split; reflexivity.
  - destruct (IH t' (tl ks)) as (H1 & H2).
    rewrite !count_app. unfold count in *. simpl. rewrite H1, <- H2.
    split; lia.
Qed.

Lemma passes_nothing_else fs : forall t ks,
  count is_init (passes update t fs ks) = 0%nat /\
  count is_release (passes update t fs ks) = 0%nat /\
  count is_destroy (passes update t fs ks) = 0%nat /\
  count is_capture (passes update t fs ks) = 0%nat /\
  count is_create (passes update t fs ks) = 0%nat /\
  created (passes update t fs ks) = [] /\
  resized (passes update t fs ks) = [].
Proof.
  by_passes fs IH.
  - repeat split.
  - repeat split.
  - destruct (IH t' (tl ks)) as (H1 & H2 & H3 & H4 & H5 & H6 & H7).
    unfold count in *. simpl. repeat split; assumption.
Qed.

Lemma passes_updated fs : forall t ks,
  updated (passes update t fs ks) = firstn (npasses fs ks) fs.
Proof.
  by_passes fs IH.
  - reflexivity.
  - simpl. f_equal. apply IH.
Qed.

Lemma passes_shown_in fs : forall t ks,
  shown_in (passes update t fs ks) = repeat "Frame"%string (npasses fs ks).
Proof.
  by_passes fs IH.
  - reflexivity.
  - simpl. f_equal. apply IH.
Qed.


Lemma passes_shown fs : forall t ks,
  shown (passes update t fs ks)
  = displays update t (firstn (npasses fs ks) fs).
Proof.
  induction fs as [|f fs IH]; intros t ks; [reflexivity|].
  cbn [passes npasses].
  destruct (is_quit (hd (-1) ks)); cbn [firstn displays];
    destruct (update t f) as [[ok bb] t']; simpl.
  - reflexivity.
  - f_equal. apply IH.
Qed.

(** *** How many passes, from the keys alone *)

Lemma npasses_le fs : forall ks, (npasses fs ks <= length fs)%nat.
Proof.
  induction fs as [|f fs IH]; intros ks; simpl; [lia|].
  destruct (is_quit (hd (-1) ks)); [lia|]. specialize (IH (tl ks)). lia.
Qed.

Lemma npasses_first_quit fs : forall ks1 q ks2,
  never_quit ks1 -> is_quit q = true -> (length ks1 < length fs)%nat ->
  npasses fs (ks1 ++ q :: ks2) = S (length ks1) /\
  quits fs (ks1 ++ q :: ks2) = true /\
  skipn (S (length ks1)) (ks1 ++ q :: ks2) = ks2.
Proof.
  induction fs as [|f fs IH]; intros ks1 q ks2 Hn Hq Hlt; [simpl in Hlt; lia|].
  destruct ks1 as [|k ks1]; cbn [npasses quits app hd tl length].
  - rewrite Hq. repeat split.
  - inversion Hn as [|? ? Hk Hn']; subst. rewrite Hk.
    destruct (IH ks1 q ks2 Hn' Hq) as (H1 & H2 & H3).
    { simpl in Hlt. lia. }
    rewrite H1, H2. repeat split. exact H3.
Qed.

(** When the loop ends on the quit key, its last call is the poll that
    returned that key. *)
Lemma passes_end_on_quit fs : forall t ks1 q ks2,
  never_quit ks1 -> is_quit q = true -> (length ks1 < length fs)%nat ->
  exists before,
    passes update t fs (ks1 ++ q :: ks2) = before ++ [EWaitKey 1 q].
Proof.
  induction fs as [|f fs IH]; intros t ks1 q ks2 Hn Hq Hlt1;
    [simpl in Hlt1; lia|].
  cbn [passes]. destruct (update t f) as [[ok bb] t'].
  destruct ks1 as [|k ks1]; cbn [app hd tl].
  - rewrite Hq.
    exists [ERead (Some f); EUpdate f ok bb; EImshow "Frame" (annotated f ok bb)].
    reflexivity.
  - inversion Hn as [|? ? Hk Hn']; subst. rewrite Hk.
    destruct (IH t' ks1 q ks2 Hn' Hq) as (before & E). { simpl in Hlt1. lia. }
    rewrite E.
    exists ([ERead (Some f); EUpdate f ok bb;
             EImshow "Frame" (annotated f ok bb); EWaitKey 1 k; ESleep 50]
            ++ before).
    rewrite <- !app_assoc. reflexivity.
Qed.

(** *** The whole run, call by call *)

(** X1: a run on a file that opened and holds the frames [f0 :: rest]
    finishes, and its calls are those before the loop, then the passes over
    [rest] with the pending keys (starting from the tracker state that
    [init] left), then the four cleanup calls. *)
Theorem run_is_prologue_passes_epilogue fuel w f0 rest :
  opened w = true -> frames w = f0 :: rest -> log w = [] ->
  (length rest < fuel)%nat ->
  exists b w',
    main init update fuel w = Some (Finished b w') /\
    trace (Finished b w') =
      prologue w f0 ++
      passes update (snd (init (tstate w) f0 seed_bbox)) rest (keys w) ++
      epilogue.
Proof.
  intros Ho Hf Hl Hlt.
  destruct (main_passes fuel w f0 rest Ho Hf Hl Hlt) as (b & w' & M & T & _).
  exists b, w'. split; [exact M | exact T].
Qed.

(** X2: when the first quit key arrives at the poll number [length ks1]
    (counting from 0) and the source still has a frame for that pass, the
    frame of that pass is still updated on and displayed; the loop then
    leaves without sleeping, the later frames stay unread, the later keys
    stay pending, and the cleanup calls are made. *)
Theorem quit_key_ends_run_after_its_frame fuel w f0 rest ks1 q ks2 :
  opened w = true -> frames w = f0 :: rest -> log w = [] ->
  keys w = ks1 ++ q :: ks2 -> never_quit ks1 -> is_quit q = true ->
  (length ks1 < length rest)%nat -> (length rest < fuel)%nat ->
  exists b w' earlier,
    main init update fuel w = Some (Finished b w') /\
    count is_update (rev (log w')) = S (length ks1) /\
    count is_imshow (rev (log w')) = S (length ks1) /\
    count is_sleep (rev (log w')) = length ks1 /\
    count is_read (rev (log w')) = S (S (length ks1)) /\
    frames w' = skipn (S (length ks1)) rest /\
    keys w' = ks2 /\
    rev (log w') = earlier ++ EWaitKey 1 q :: epilogue.
Proof.
  intros Ho Hf Hl Hk Hn Hq Hlt1 Hlt.
  destruct (main_passes fuel w f0 rest Ho Hf Hl Hlt)
    as (b & w' & M & T & _ & Fw & Kw).
  rewrite Hk in T, Fw, Kw.
  destruct (npasses_first_quit rest ks1 q ks2 Hn Hq Hlt1) as (N & Q & Sk).
  rewrite N in Fw, Kw. rewrite Sk in Kw.
  set (t0 := snd (init (tstate w) f0 seed_bbox)) in *.
  destruct (passes_updates rest t0 (ks1 ++ q :: ks2)) as (Cu & Ci & _).
  destruct (passes_reads_sleeps rest t0 (ks1 ++ q :: ks2)) as (Cr & Cs).
  rewrite N in Cu, Ci, Cr, Cs. rewrite Q in Cr, Cs.
  destruct (passes_end_on_quit rest t0 ks1 q ks2 Hn Hq Hlt1) as (before & E).
  exists b, w', (prologue w f0 ++ before). split; [exact M|].
  rewrite T, !count_app, Cu, Ci, Cr.
  repeat split; try assumption; try (unfold count; simpl; lia).
  - unfold count in *. simpl. lia.
  - rewrite E, <- !app_assoc. reflexivity.
Qed.

(** X3: the tracker is initialized once, with the first frame of the file
    as it was read and the seed box, before any update; the updates then
    receive the following source frames, unannotated and in order, each
    starting from the state the previous call left; at the end the
    bounding-box variable holds what the last of these updates returned. *)
Theorem tracker_sees_source_frames_in_order fuel w f0 rest :
  opened w = true -> frames w = f0 :: rest -> log w = [] ->
  (length rest < fuel)%nat ->
  exists b w' later,
    main init update fuel w = Some (Finished b w') /\
    rev (log w') = prologue w f0 ++ later /\
    count is_init later = 0%nat /\
    updated (rev (log w')) = firstn (npasses rest (keys w)) rest /\
    (tstate w', b) =
      fold_left (step update) (firstn (npasses rest (keys w)) rest)
                (snd (init (tstate w) f0 seed_bbox), seed_bbox).
Proof.
  intros Ho Hf Hl Hlt.
  destruct (main_passes fuel w f0 rest Ho Hf Hl Hlt) as (b & w' & M & T & St & _).
  set (t0 := snd (init (tstate w) f0 seed_bbox)) in *.
  exists b, w', (passes update t0 rest (keys w) ++ epilogue).
  destruct (passes_nothing_else rest t0 (keys w)) as (Ci & _).
  split; [exact M|]. split; [exact T|]. split.
  { rewrite count_app, Ci. reflexivity. }
  split; [|exact St].
  rewrite T. unfold updated. rewrite !flat_map_app.
  fold (updated (passes update t0 rest (keys w))). rewrite passes_updated.
  simpl. apply app_nil_r.
Qed.


(** X5: in a finished run every tracker update comes with exactly one
    displayed frame and one keyboard poll, there are no more updates than
    frames after the first, and the reads outnumber the sleeps by two (the
    read before the loop and the read or poll that ended the loop). *)
Theorem one_display_and_one_poll_per_update fuel w f0 rest :
  opened w = true -> frames w = f0 :: rest -> log w = [] ->
  (length rest < fuel)%nat ->
  exists b w',
    main init update fuel w = Some (Finished b w') /\
    count is_imshow (rev (log w')) = count is_update (rev (log w')) /\
    count is_waitKey (rev (log w')) = count is_update (rev (log w')) /\
    (count is_update (rev (log w')) <= length rest)%nat /\
    count is_read (rev (log w')) = (count is_sleep (rev (log w')) + 2)%nat.
Proof.
  intros Ho Hf Hl Hlt.
  destruct (main_passes fuel w f0 rest Ho Hf Hl Hlt) as (b & w' & M & T & _).
  set (t0 := snd (init (tstate w) f0 seed_bbox)) in *.
  destruct (passes_updates rest t0 (keys w)) as (Cu & Ci & Ck).
  destruct (passes_reads_sleeps rest t0 (keys w)) as (Cr & Cs).
  pose proof (npasses_le rest (keys w)) as Hle.
  exists b, w'. split; [exact M|].
  rewrite T, !count_app, Cu, Ci, Ck, Cr.
  change (count is_imshow (prologue w f0)) with 0%nat.
  change (count is_update (prologue w f0)) with 0%nat.
  change (count is_waitKey (prologue w f0)) with 0%nat.
  change (count is_read (prologue w f0)) with 1%nat.
  change (count is_sleep (prologue w f0)) with 0%nat.
  change (count is_imshow epilogue) with 0%nat.
  change (count is_update epilogue) with 0%nat.
  change (count is_waitKey epilogue) with 0%nat.
  change (count is_read epilogue) with 0%nat.
  change (count is_sleep epilogue) with 0%nat.
  destruct (quits rest (keys w)); repeat split; lia.
Qed.

(** X6: the only window the script creates (and resizes) is
    "Object Tracker", but every frame is drawn in the window "Frame": the
    window that was created is never drawn in. *)
Theorem frames_go_to_a_window_never_created fuel w f0 rest :
  opened w = true -> frames w = f0 :: rest -> log w = [] ->
  (length rest < fuel)%nat ->
  exists b w',
    main init update fuel w = Some (Finished b w') /\
    created (rev (log w')) = ["Object Tracker"%string] /\
    shown_in (rev (log w')) = repeat "Frame"%string (npasses rest (keys w)) /\
    Forall (fun name => ~ In name (created (rev (log w'))))
           (shown_in (rev (log w'))).
Proof.
  intros Ho Hf Hl Hlt.
  destruct (main_passes fuel w f0 rest Ho Hf Hl Hlt) as (b & w' & M & T & _).
  set (t0 := snd (init (tstate w) f0 seed_bbox)) in *.
  destruct (passes_nothing_else rest t0 (keys w)) as (_ & _ & _ & _ & _ & Cc & _).
  assert (C : created (rev (log w')) = ["Object Tracker"%string]).
  { rewrite T. unfold created. rewrite !flat_map_app.
    fold (created (passes update t0 rest (keys w))). rewrite Cc. reflexivity. }
  assert (S : shown_in (rev (log w'))
              = repeat "Frame"%string (npasses rest (keys w))).
  { rewrite T. unfold shown_in. rewrite !flat_map_app.
    fold (shown_in (passes update t0 rest (keys w))). rewrite passes_shown_in.
    simpl. apply app_nil_r. }
  exists b, w'. split; [exact M|]. split; [exact C|]. split; [exact S|].
  rewrite C, S. apply Forall_forall. intros name Hin.
  apply repeat_spec in Hin. subst name. simpl. intros [H|[]]. discriminate H.
Qed.

(** X7: the created window is resized once, to half the frame width and
    half the frame height, both rounded down: its area is at most a quarter
    of the frame's, and exactly a quarter when both dimensions are even. *)
Theorem window_resized_to_half_each_side fuel w f0 rest :
  opened w = true -> frames w = f0 :: rest -> log w = [] ->
  (length rest < fuel)%nat ->
  0 <= frame_width w -> 0 <= frame_height w ->
  exists b w' a c,
    main init update fuel w = Some (Finished b w') /\
    resized (rev (log w')) = [("Object Tracker"%string, a, c)] /\
    frame_width w - 1 <= 2 * a <= frame_width w /\
    frame_height w - 1 <= 2 * c <= frame_height w /\
    4 * (a * c) <= frame_width w * frame_height w /\
    (Z.even (frame_width w) = true -> Z.even (frame_height w) = true ->
     4 * (a * c) = frame_width w * frame_height w).
Proof.
  intros Ho Hf Hl Hlt Hw Hh.
  destruct (main_passes fuel w f0 rest Ho Hf Hl Hlt) as (b & w' & M & T & _).
  set (t0 := snd (init (tstate w) f0 seed_bbox)) in *.
  destruct (passes_nothing_else rest t0 (keys w)) as (_ & _ & _ & _ & _ & _ & Cr).
  exists b, w', (frame_width w / 2), (frame_height w / 2).
  split; [exact M|]. split.
  { rewrite T. unfold resized. rewrite !flat_map_app.
    fold (resized (passes update t0 rest (keys w))). rewrite Cr. reflexivity. }
  pose proof (Z.div_mod (frame_width w) 2 ltac:(lia)) as Dw.
  pose proof (Z.mod_pos_bound (frame_width w) 2 ltac:(lia)) as Bw.
  pose proof (Z.div_mod (frame_height w) 2 ltac:(lia)) as Dh.
  pose proof (Z.mod_pos_bound (frame_height w) 2 ltac:(lia)) as Bh.
  split; [lia|]. split; [lia|]. split; [nia|].
  intros Ew Eh.
  rewrite Zeven_mod in Ew, Eh.
  apply Z.eqb_eq in Ew, Eh. nia.
Qed.

(** X8: a file that opens but holds no frame makes the script raise in
    [displayRectangle], after the window was created and the figure opened:
    the tracker is never initialized or updated, and neither the capture nor
    the window is released. *)
Theorem empty_file_raises_and_releases_nothing fuel w :
  opened w = true -> frames w = [] -> log w = [] ->
  exists w',
    main init update fuel w = Some (Raised w') /\
    rev (log w') =
      [ ECreate TrackerGOTURN; EVideoCapture "race_car.mp4"; ERead None;
        EIsOpened true; ENamedWindow "Object Tracker";
        EResizeWindow "Object Tracker" (frame_width w / 2) (frame_height w / 2);
        EPltFigure 20 10 ] /\
    count is_init (rev (log w')) = 0%nat /\
    count is_update (rev (log w')) = 0%nat /\
    count is_release (rev (log w')) = 0%nat /\
    count is_destroy (rev (log w')) = 0%nat.
Proof.
  intros Ho Hf Hl.
  destruct (main_no_frame_trace fuel w Ho Hf) as (w' & M & L).
  exists w'. split; [exact M|]. rewrite L, Hl. simpl. repeat split.
Qed.

(** What a run leaves that does not mention the tracker's answers. *)
Lemma main_consumes fuel w f0 rest :
  opened w = true -> frames w = f0 :: rest -> log w = [] ->
  (length rest < fuel)%nat ->
  exists b w',
    main init update fuel w = Some (Finished b w') /\
    updated (rev (log w')) = firstn (npasses rest (keys w)) rest /\
    count is_update (rev (log w')) = npasses rest (keys w) /\
    count is_sleep (rev (log w'))
    = (npasses rest (keys w) - (if quits rest (keys w) then 1 else 0))%nat /\
    frames w' = skipn (npasses rest (keys w)) rest /\
    keys w' = skipn (npasses rest (keys w)) (keys w).
Proof.
  intros Ho Hf Hl Hlt.
  destruct (main_passes fuel w f0 rest Ho Hf Hl Hlt)
    as (b & w' & M & T & _ & Fw & Kw).
  set (t0 := snd (init (tstate w) f0 seed_bbox)) in *.
  destruct (passes_updates rest t0 (keys w)) as (Cu & _).
  destruct (passes_reads_sleeps rest t0 (keys w)) as (_ & Cs).
  exists b, w'. split; [exact M|]. split.
  { rewrite T. unfold updated. rewrite !flat_map_app.
    fold (updated (passes update t0 rest (keys w))). rewrite passes_updated.
    simpl. apply app_nil_r. }
  split.
  { rewrite T, !count_app, Cu. unfold count. simpl. lia. }
  split; [|split; [exact Fw | exact Kw]].
  rewrite T, !count_app, <- Cs. unfold count. simpl. lia.
Qed.

(** *** Runs that no key stops, trackers that always fail *)

Lemma npasses_never_quit fs : forall ks,
  never_quit ks -> npasses fs ks = length fs.
Proof.
  induction fs as [|f fs IH]; intros ks Hn; [reflexivity|].
  cbn [npasses length].
  assert (Hq : is_quit (hd (-1) ks) = false /\ never_quit (tl ks)).
  { destruct ks as [|k ks]; simpl; [split; [reflexivity | constructor]|].
    inversion Hn; subst. auto. }
  destruct Hq as [-> Hn']. rewrite (IH _ Hn'). reflexivity.
Qed.

Lemma displays_length fs : forall t, length (displays update t fs) = length fs.
Proof.
  induction fs as [|f fs IH]; intros t; [reflexivity|].
  cbn [displays]. destruct (update t f) as [[ok bb] t'].
  simpl. rewrite IH. reflexivity.
Qed.

Lemma displays_fail fs : forall t,
  always_fails update ->
  Forall2 (fun f fr =>
             (exists bb, fr = annotated f false bb) /\
             image fr = image f /\
             overlays fr = overlays f ++ [failure_text; label_text] /\
             filter is_rectangle (overlays fr) = filter is_rectangle (overlays f))
          fs (displays update t fs).
Proof.
  intros t Hall. revert t.
  induction fs as [|f fs IH]; intros t; [constructor|].
  cbn [displays]. pose proof (Hall t f) as Hf.
  destruct (update t f) as [[ok bb] t']. simpl in Hf. subst ok.
  constructor; [|apply IH].
  split; [exists bb; reflexivity|]. split; [reflexivity|].
  split; [apply annotated_fail|].
  rewrite annotated_fail, filter_app. simpl. apply app_nil_r.
Qed.

(** The passes end with the call that stops them, and no earlier call does. *)
Lemma passes_stop fs : forall t ks,
  exists before e,
    passes update t fs ks = before ++ [e] /\
    (e = ERead None \/ exists key, is_quit key = true /\ e = EWaitKey 1 key) /\
    Forall (fun e' => stops e' = false) before.
Proof.
  induction fs as [|f fs IH]; intros t ks.
  - exists [], (ERead None). repeat split; [left; reflexivity | constructor].
  - cbn [passes]. destruct (update t f) as [[ok bb] t'].
    destruct (is_quit (hd (-1) ks)) eqn:Hq.
    + exists [ERead (Some f); EUpdate f ok bb; EImshow "Frame" (annotated f ok bb)],
             (EWaitKey 1 (hd (-1) ks)).
      split; [reflexivity|]. split; [right; eauto|]. repeat constructor.
    + destruct (IH t' (tl ks)) as (before & e & E & He & Hb).
      exists ([ERead (Some f); EUpdate f ok bb;
               EImshow "Frame" (annotated f ok bb); EWaitKey 1 (hd (-1) ks);
               ESleep 50] ++ before), e.
      split; [rewrite E, <- !app_assoc; reflexivity|]. split; [exact He|].
      apply Forall_app. split; [|exact Hb].
      repeat constructor. simpl. exact Hq.
Qed.

(** *** What is drawn when the update fails *)

(** C4: in a pass whose update fails the displayed frame gains the text
    "Tracking failure detected" and no rectangle; with a tracker that always
    fails, the run displays every frame it reads after the first -- all of
    them when no key quits -- each as the source frame plus that text (and
    the tracker label), with no rectangle added. *)
Theorem failure_text_and_no_rectangle :
  (forall b w f w1 bb w2,
      video_read w = (Some f, w1) ->
      do_update update f w1 = (false, bb, w2) ->
      exists fr,
        shown (rev (log (snd (body update b w)))) = shown (rev (log w)) ++ [fr] /\
        overlays fr = overlays f ++ [failure_text; label_text] /\
        filter is_rectangle (overlays fr) = filter is_rectangle (overlays f)) /\
  (always_fails update ->
   forall fuel w f0 rest,
     opened w = true -> frames w = f0 :: rest -> log w = [] ->
     (length rest < fuel)%nat ->
     exists b w',
       main init update fuel w = Some (Finished b w') /\
       Forall2 (fun f fr =>
                  (exists bb, fr = annotated f false bb) /\
                  image fr = image f /\
                  overlays fr = overlays f ++ [failure_text; label_text] /\
                  filter is_rectangle (overlays fr)
                  = filter is_rectangle (overlays f))
               (firstn (npasses rest (keys w)) rest)
               (shown (rev (log w'))) /\
       (never_quit (keys w) ->
        length (shown (rev (log w'))) = length rest /\
        npasses rest (keys w) = length rest)).
Proof.
  split.
  - intros b w f w1 bb w2 Hr Hu.
    destruct (body update b w) as [[fl b1] w3] eqn:Hb.
    destruct (body_reads _ _ _ _ _ _ _ Hr Hb) as (ok & U & _ & _ & _ & _ & _ & L).
    destruct (do_update_fields _ _ _ _ _ Hu) as (U' & _).
    destruct (video_read_some _ _ _ Hr) as (_ & _ & _ & _ & T & _).
    rewrite T, U in U'. inversion U'; subst ok b1.
    exists (annotated f false bb). simpl snd.
    rewrite L, rev_app_distr, shown_app, shown_pass.
    split; [reflexivity|]. split; [apply annotated_fail|].
    rewrite annotated_fail, filter_app. simpl. apply app_nil_r.
  - intros Hall fuel w f0 rest Ho Hf Hl Hlt.
    destruct (main_passes fuel w f0 rest Ho Hf Hl Hlt) as (b & w' & M & T & _).
    exists b, w'. split; [exact M|].
    assert (S : shown (rev (log w'))
                = displays update (snd (init (tstate w) f0 seed_bbox))
                           (firstn (npasses rest (keys w)) rest)).
    { rewrite T, !shown_app, shown_prologue. simpl. rewrite app_nil_r.
      apply passes_shown. }
    rewrite S. split; [apply displays_fail; exact Hall|].
    intros Hn. rewrite displays_length, (npasses_never_quit rest _ Hn).
    rewrite firstn_all. split; reflexivity.
Qed.

(** *** Leaving the loop, ending the process *)

(** C8: a pass through the loop body ends the loop exactly when its frame
    read fails or the key it polls is the quit key, that is a key code equal
    to ord("q") = 113 in its low byte; the last call of a loop that ended is
    such a read or poll, and the loop does end once the frames run out.  For
    the whole script: every run ends, and it has exactly one call that
    stops it -- a read that returns no frame (before the loop, when the file
    did not open or is empty, or in the loop, at the end of the stream) or a
    poll that sees the quit key -- with no such call before it and no read,
    tracker call, display, poll or sleep after it. *)
Theorem loop_ends_on_stream_end_or_quit :
  (forall b w,
      fst (fst (body update b w)) = Break <->
      (fst (video_read w) = None \/
       (exists f, fst (video_read w) = Some f /\ is_quit (next_key w) = true))) /\
  (forall fuel b w b' w',
      loop update fuel b w = Some (b', w') ->
      exists earlier,
        log w' = ERead None :: earlier \/
        (exists key, is_quit key = true /\ log w' = EWaitKey 1 key :: earlier)) /\
  (forall fuel b w,
      (length (frames w) < fuel)%nat ->
      exists b' w', loop update fuel b w = Some (b', w')) /\
  (ord "q"%char = 113 /\
   forall key, is_quit key = true <-> key mod 256 = 113) /\
  (forall fuel w,
      log w = [] -> (length (frames w) <= fuel)%nat ->
      exists o before e after,
        main init update fuel w = Some o /\
        trace o = before ++ e :: after /\
        (e = ERead None \/
         exists key, key mod 256 = 113 /\ e = EWaitKey 1 key) /\
        Forall (fun e' => stops e' = false) before /\
        Forall (fun e' => works e' = false) after).
Proof.
  split; [|split; [|split; [|split]]].
  - intros b w. split.
    + intros Hfl. destruct (body update b w) as [[fl b1] w1] eqn:Hb.
      simpl in Hfl. subst fl.
      destruct (body_break _ _ _ _ Hb) as [(Hn & _)|(f & Hs & Hq & _)]; eauto.
    + intros [Hn|(f & Hs & Hq)].
      * rewrite (body_read_fails b w Hn). reflexivity.
      * destruct (video_read w) as [r w0] eqn:Hr. simpl in Hs. subst r.
        destruct (body update b w) as [[fl b1] w1] eqn:Hb.
        destruct (body_reads _ _ _ _ _ _ _ Hr Hb) as (ok & _ & Hfl & _).
        rewrite Hq in Hfl. exact Hfl.
  - induction fuel as [|fuel IH]; intros b w b' w' Hl; [discriminate|].
    rewrite loop_step in Hl.
    destruct (body update b w) as [[fl b1] w1] eqn:Hb. destruct fl.
    + exact (IH _ _ _ _ Hl).
    + inversion Hl; subst.
      destruct (body_break _ _ _ _ Hb) as [(_ & _ & L)|(f & _ & Hq & rest & L)].
      * exists (log w). left. exact L.
      * exists rest. right. exists (next_key w). split; assumption.
  - intros fuel b w. apply loop_total.
  - split; [reflexivity|]. intros key. rewrite is_quit_mod. apply Z.eqb_eq.
  - intros fuel w Hl Hlt.
    destruct (opened w) eqn:Ho.
    2:{ rewrite (main_not_opened fuel w Ho), Hl.
        eexists _, [ECreate TrackerGOTURN; EVideoCapture "race_car.mp4"],
                (ERead None),
                [EIsOpened false; EPrint "Error opening video file"; EExit].
        split; [reflexivity|]. split; [reflexivity|].
        split; [left; reflexivity|]. split; repeat constructor. }
    destruct (frames w) as [|f0 rest] eqn:Hf.
    { destruct (main_no_frame_trace fuel w Ho Hf) as (w' & M & L).
      exists (Raised w'), [ECreate TrackerGOTURN; EVideoCapture "race_car.mp4"],
             (ERead None),
             [EIsOpened true; ENamedWindow "Object Tracker";
              EResizeWindow "Object Tracker"
                            (frame_width w / 2) (frame_height w / 2);
              EPltFigure 20 10].
      split; [exact M|]. split.
      { unfold trace. simpl final_world. rewrite L, Hl. reflexivity. }
      split; [left; reflexivity|]. split; repeat constructor. }
    assert (Hlt' : (length rest < fuel)%nat) by (simpl in Hlt; lia).
    destruct (main_passes fuel w f0 rest Ho Hf Hl Hlt') as (b & w' & M & T & _).
    destruct (passes_stop rest (snd (init (tstate w) f0 seed_bbox)) (keys w))
      as (before & e & E & He & Hb).
    exists (Finished b w'), (prologue w f0 ++ before), e, epilogue.
    split; [exact M|]. split.
    { unfold trace. simpl final_world. rewrite T, E, <- !app_assoc. reflexivity. }
    split.
    { destruct He as [He|(key & Hq & He)]; [left; exact He|].
      right. exists key. split; [|exact He].
      rewrite is_quit_mod in Hq. apply Z.eqb_eq. exact Hq. }
    split; [|repeat constructor].
    apply Forall_app. split; [repeat constructor | exact Hb].
Qed.

End Properties.


(** ** The properties on concrete runs *)

Lemma unrecognized_kind_selects_mosse_witness :
  create_tracker "mosse" = TrackerMOSSE.
Proof.
  apply (unrecognized_kind_selects_mosse "mosse");
    apply String.eqb_neq; reflexivity.
Defined.

(** C2, counterexample: the update fails and reports (0, 0, 0, 0); after the
    pass the bounding-box variable holds (0, 0, 0, 0), not the seed box it
    held before. *)
Lemma failed_update_overwrites_bbox :
  fst (fst (lost tt (raw 1))) = false /\
  snd (fst (body lost seed_bbox (source [raw 1] []))) = (0, 0, 0, 0)%Q /\
  snd (fst (body lost seed_bbox (source [raw 1] []))) <> seed_bbox.
Proof. split; [reflexivity|]. split; [reflexivity | discriminate]. Qed.

Lemma bbox_rebound_by_every_update_witness :
  snd (fst (body lost seed_bbox (source [raw 1] []))) = (0, 0, 0, 0)%Q.
Proof.
  eapply (proj1 (bbox_rebound_by_every_update unit lost)); reflexivity.
Defined.

Lemma no_later_frame_no_update_witness :
  exists w',
    main stub_init steady 1 (source [raw 0] [113]) = Some (Finished seed_bbox w') /\
    count is_update (log w') = 0%nat /\ count is_imshow (log w') = 0%nat.
Proof.
  apply (proj2 (no_later_frame_no_update unit stub_init steady 1
                  (source [raw 0] [113]) (raw 0)
                  eq_refl eq_refl eq_refl (Nat.lt_0_succ 0))).
Defined.

(** C1, counterexample: a source of two frames and no key pressed; the run
    finishes after one tracker update and one displayed frame, not two. *)
Lemma two_frames_one_update :
  exists b w',
    never_quit (keys (source [raw 0; raw 1] [])) /\
    main stub_init steady 3 (source [raw 0; raw 1] []) = Some (Finished b w') /\
    count is_update (log w') = 1%nat /\ count is_imshow (log w') = 1%nat /\
    count is_update (log w') <> length (frames (source [raw 0; raw 1] [])).
Proof.
  eexists _, _. split; [constructor|]. split; [vm_compute; reflexivity|].
  split; [reflexivity|]. split; [reflexivity | discriminate].
Qed.

Lemma one_pass_per_frame_after_seed_witness :
  exists b w',
    main stub_init steady 5 (source [raw 0; raw 1; raw 2] [-1; 81])
    = Some (Finished b w') /\
    count is_update (log w') = 2%nat /\
    count is_imshow (log w') = 2%nat /\
    3%nat = S (count is_update (log w')) /\
    count is_read (log w') = 4%nat /\
    frames w' = [].
Proof.
  apply (one_pass_per_frame_after_seed unit stub_init steady 5
           (source [raw 0; raw 1; raw 2] [-1; 81]) (raw 0) [raw 1; raw 2]);
    try reflexivity.
  - repeat constructor.
  - simpl. lia.
Defined.



Lemma failure_text_and_no_rectangle_witness :
  exists b w',
    main stub_init lost 4 (source [raw 0; raw 1; raw 2] []) = Some (Finished b w') /\
    Forall2 (fun f fr =>
               (exists bb, fr = annotated f false bb) /\
               image fr = image f /\
               overlays fr = overlays f ++ [failure_text; label_text] /\
               filter is_rectangle (overlays fr) = filter is_rectangle (overlays f))
            [raw 1; raw 2] (shown (rev (log w'))) /\
    (never_quit [] ->
     length (shown (rev (log w'))) = 2%nat /\
     npasses [raw 1; raw 2] [] = 2%nat).
Proof.
  apply (proj2 (failure_text_and_no_rectangle unit stub_init lost)
           (fun t f => eq_refl) 4%nat (source [raw 0; raw 1; raw 2] [])
           (raw 0) [raw 1; raw 2]);
    try reflexivity.
  simpl. lia.
Defined.

Lemma loop_ends_on_stream_end_or_quit_witness :
  is_quit 369 = true /\
  (exists o before e after,
      main stub_init steady 3 (source [raw 0; raw 1; raw 2] [369]) = Some o /\
      trace o = before ++ e :: after /\
      (e = ERead None \/ exists key, key mod 256 = 113 /\ e = EWaitKey 1 key) /\
      Forall (fun e' => stops e' = false) before /\
      Forall (fun e' => works e' = false) after) /\
  (exists o,
      main stub_init steady 3 (source [raw 0; raw 1; raw 2] [369]) = Some o /\
      trace o =
        (prologue (source [raw 0; raw 1; raw 2] [369]) (raw 0) ++
         [ ERead (Some (raw 1)); EUpdate (raw 1) true seed_bbox;
           EImshow "Frame" (annotated (raw 1) true seed_bbox) ]) ++
        EWaitKey 1 369 :: epilogue).
Proof.
  destruct (loop_ends_on_stream_end_or_quit unit stub_init steady)
    as (_ & _ & _ & (_ & Hq) & Hmain).
  split; [apply Hq; reflexivity|]. split.
  - apply Hmain; [reflexivity | simpl; lia].
  - eexists. split; [vm_compute; reflexivity | reflexivity].
Defined.

Lemma open_failure_exits_update_failure_goes_on_witness :
  exists w',
    main stub_init lost 0 missing = Some (Exited w') /\
    rev (log w') =
      [ ECreate TrackerGOTURN; EVideoCapture "race_car.mp4"; ERead None;
        EIsOpened false; EPrint "Error opening video file"; EExit ] /\
    count is_init (log w') = 0%nat /\ count is_update (log w') = 0%nat.
Proof.
  apply (proj1 (open_failure_exits_update_failure_goes_on unit stub_init lost));
    reflexivity.
Defined.

Lemma normal_exit_releases_twice_witness :
  exists b w',
    main stub_init steady 3 (source [raw 0; raw 1] []) = Some (Finished b w') /\
    count is_capture (log w') = 1%nat /\ count is_namedWindow (log w') = 1%nat /\
    count is_release (log w') = 2%nat /\ count is_destroy (log w') = 2%nat.
Proof.
  eexists _, _. split.
  - vm_compute. reflexivity.
  - eapply (normal_exit_releases_twice unit stub_init steady 3
              (source [raw 0; raw 1] [])).
    + reflexivity.
    + vm_compute. reflexivity.
Defined.

(** C7, counterexample: on a source of two frames exactly one [video.read()]
    precedes [tracker.init], not two, and the tracker is initialized with the
    frame of that read. *)
Lemma one_read_before_init :
  exists o,
    main stub_init steady 3 (source [raw 0; raw 1] []) = Some o /\
    reads_before_init (trace o) = 1%nat /\
    reads_before_init (trace o) <> 2%nat /\
    init_frame (trace o) = Some (raw 0).
Proof.
  eexists. split; [vm_compute; reflexivity|].
  split; [reflexivity|]. split; [discriminate | reflexivity].
Qed.

Lemma single_read_before_init_witness :
  exists b w' later,
    main stub_init steady 3 (source [raw 0; raw 1] []) = Some (Finished b w') /\
    trace (Finished b w') = prologue (source [raw 0; raw 1] []) (raw 0) ++ later /\
    reads_before_init (trace (Finished b w')) = 1%nat /\
    init_frame (trace (Finished b w')) = Some (raw 0).
Proof.
  apply (single_read_before_init unit stub_init steady 3
           (source [raw 0; raw 1] []) (raw 0) [raw 1]);
    try reflexivity.
  simpl. lia.
Defined.

(** ** Further properties of the script *)

(** X9: the quit test looks at the low byte of the key code only: a key
    quits exactly when its code is 113 modulo 256, so adding any multiple of
    256 (modifier bits above the low byte) changes nothing. *)
Theorem quit_test_reads_low_byte :
  (forall key, is_quit key = true <-> key mod 256 = 113) /\
  (forall key m, is_quit (key + m * 256) = is_quit key).
Proof.
  split.
  - intros key. rewrite is_quit_mod. apply Z.eqb_eq.
  - intros key m. rewrite !is_quit_mod, Z_mod_plus_full. reflexivity.
Qed.

Lemma quit_test_reads_low_byte_witness : is_quit 369 = true.
Proof. apply (proj1 quit_test_reads_low_byte 369). reflexivity. Defined.

(** X10: the eight listed names select the eight trackers, one each and in
    the order of the list (the last, "MOSSE", through the [else] branch): on
    the listed names the selection is one-to-one, and every tracker has a
    name that selects it. *)
Theorem listed_names_select_distinct_trackers :
  map create_tracker tracker_types =
    [ TrackerBoosting; TrackerMIL; TrackerKCF; TrackerCSRT; TrackerTLD;
      TrackerMedianFlow; TrackerGOTURN; TrackerMOSSE ] /\
  (forall s s',
      In s tracker_types -> In s' tracker_types ->
      create_tracker s = create_tracker s' -> s = s') /\
  (forall k, exists s, In s tracker_types /\ create_tracker s = k).
Proof.
  split; [reflexivity|]. split.
  - intros s s' H H' E. simpl in H, H'.
    decompose [or] H; decompose [or] H'; subst;
      try reflexivity; try contradiction; vm_compute in E; discriminate E.
  - intros k.
    destruct k;
      [ exists "BOOSTING"%string | exists "MIL"%string | exists "KCF"%string
      | exists "CSRT"%string | exists "TLD"%string | exists "MEDIANFLOW"%string
      | exists "GOTURN"%string | exists "MOSSE"%string ];
      (split; [simpl; tauto | reflexivity]).
Qed.

Lemma listed_names_select_distinct_trackers_witness :
  tracker_type = "GOTURN"%string.
Proof.
  apply (proj1 (proj2 listed_names_select_distinct_trackers)
           tracker_type "GOTURN"%string);
    [simpl; tauto | simpl; tauto | reflexivity].
Defined.

(** X11: a tracker whose successful updates report boxes that
    [cv2.rectangle] accepts (corners within the C [int] range) has no say in
    how far the run goes: two runs over the same frames and the same keys,
    with any two such trackers, hand the same frames to [update], sleep as
    often, and leave the same frames unread and the same keys pending. *)
Theorem tracker_cannot_change_the_passes (T1 T2 : Type)
  (init1 : T1 -> Frame -> BBox -> bool * T1)
  (update1 : T1 -> Frame -> bool * BBox * T1)
  (init2 : T2 -> Frame -> BBox -> bool * T2)
  (update2 : T2 -> Frame -> bool * BBox * T2)
  (fuel : nat) (w1 : World T1) (w2 : World T2) (f0 : Frame) (rest : list Frame) :
  reports_drawable update1 -> reports_drawable update2 ->
  opened w1 = true -> opened w2 = true ->
  frames w1 = f0 :: rest -> frames w2 = f0 :: rest ->
  keys w1 = keys w2 -> log w1 = [] -> log w2 = [] ->
  (length rest < fuel)%nat ->
  exists b1 w1' b2 w2',
    main init1 update1 fuel w1 = Some (Finished b1 w1') /\
    main init2 update2 fuel w2 = Some (Finished b2 w2') /\
    updated (rev (log w1')) = updated (rev (log w2')) /\
    count is_update (rev (log w1')) = count is_update (rev (log w2')) /\
    count is_sleep (rev (log w1')) = count is_sleep (rev (log w2')) /\
    frames w1' = frames w2' /\ keys w1' = keys w2'.
Proof.
  intros _ _ O1 O2 F1 F2 K L1 L2 Hlt.
  destruct (main_consumes T1 init1 update1 fuel w1 f0 rest O1 F1 L1 Hlt)
    as (b1 & w1' & M1 & U1 & C1 & S1 & R1 & P1).
  destruct (main_consumes T2 init2 update2 fuel w2 f0 rest O2 F2 L2 Hlt)
    as (b2 & w2' & M2 & U2 & C2 & S2 & R2 & P2).
  exists b1, w1', b2, w2'. rewrite K in *.
  repeat split; congruence.
Qed.

(** *** On concrete runs *)

Lemma run_is_prologue_passes_epilogue_witness :
  exists b w',
    main stub_init steady 3 (source [raw 0; raw 1] [-1]) = Some (Finished b w') /\
    trace (Finished b w') =
      prologue (source [raw 0; raw 1] [-1]) (raw 0) ++
      passes steady tt [raw 1] [-1] ++ epilogue.
Proof.
  apply (run_is_prologue_passes_epilogue unit stub_init steady 3
           (source [raw 0; raw 1] [-1]) (raw 0) [raw 1]);
    try reflexivity.
  simpl. lia.
Defined.

Lemma quit_key_ends_run_after_its_frame_witness :
  exists b w' earlier,
    main stub_init steady 5 (source [raw 0; raw 1; raw 2; raw 3] [-1; 113; 7])
    = Some (Finished b w') /\
    count is_update (rev (log w')) = 2%nat /\
    count is_imshow (rev (log w')) = 2%nat /\
    count is_sleep (rev (log w')) = 1%nat /\
    count is_read (rev (log w')) = 3%nat /\
    frames w' = [raw 3] /\
    keys w' = [7] /\
    rev (log w') = earlier ++ EWaitKey 1 113 :: epilogue.
Proof.
  apply (quit_key_ends_run_after_its_frame unit stub_init steady 5
           (source [raw 0; raw 1; raw 2; raw 3] [-1; 113; 7]) (raw 0)
           [raw 1; raw 2; raw 3] [-1] 113 [7]);
    try reflexivity.
  - repeat constructor.
  - simpl. lia.
  - simpl. lia.
Defined.

Lemma tracker_sees_source_frames_in_order_witness :
  exists b w' later,
    main stub_init lost 4 (source [raw 0; raw 1; raw 2] []) = Some (Finished b w') /\
    rev (log w') = prologue (source [raw 0; raw 1; raw 2] []) (raw 0) ++ later /\
    count is_init later = 0%nat /\
    updated (rev (log w')) = [raw 1; raw 2] /\
    (tstate w', b) = (tt, (0, 0, 0, 0)%Q).
Proof.
  apply (tracker_sees_source_frames_in_order unit stub_init lost 4
           (source [raw 0; raw 1; raw 2] []) (raw 0) [raw 1; raw 2]);
    try reflexivity.
  simpl. lia.
Defined.


Lemma one_display_and_one_poll_per_update_witness :
  exists b w',
    main stub_init lost 4 (source [raw 0; raw 1; raw 2] [-1; 113]) = Some (Finished b w') /\
    count is_imshow (rev (log w')) = count is_update (rev (log w')) /\
    count is_waitKey (rev (log w')) = count is_update (rev (log w')) /\
    (count is_update (rev (log w')) <= 2)%nat /\
    count is_read (rev (log w')) = (count is_sleep (rev (log w')) + 2)%nat.
Proof.
  apply (one_display_and_one_poll_per_update unit stub_init lost 4
           (source [raw 0; raw 1; raw 2] [-1; 113]) (raw 0) [raw 1; raw 2]);
    try reflexivity.
  simpl. lia.
Defined.

Lemma frames_go_to_a_window_never_created_witness :
  exists b w',
    main stub_init steady 4 (source [raw 0; raw 1; raw 2] []) = Some (Finished b w') /\
    created (rev (log w')) = ["Object Tracker"%string] /\
    shown_in (rev (log w')) = ["Frame"%string; "Frame"%string] /\
    Forall (fun name => ~ In name (created (rev (log w'))))
           (shown_in (rev (log w'))).
Proof.
  apply (frames_go_to_a_window_never_created unit stub_init steady 4
           (source [raw 0; raw 1; raw 2] []) (raw 0) [raw 1; raw 2]);
    try reflexivity.
  simpl. lia.
Defined.

Lemma window_resized_to_half_each_side_witness :
  exists b w' a c,
    main stub_init steady 3 (source [raw 0; raw 1] []) = Some (Finished b w') /\
    resized (rev (log w')) = [("Object Tracker"%string, a, c)] /\
    1920 - 1 <= 2 * a <= 1920 /\
    1080 - 1 <= 2 * c <= 1080 /\
    4 * (a * c) <= 1920 * 1080 /\
    (Z.even 1920 = true -> Z.even 1080 = true -> 4 * (a * c) = 1920 * 1080).
Proof.
  apply (window_resized_to_half_each_side unit stub_init steady 3
           (source [raw 0; raw 1] []) (raw 0) [raw 1]);
    try reflexivity.
  - simpl. lia.
  - simpl. lia.
  - simpl. lia.
Defined.

Lemma empty_file_raises_and_releases_nothing_witness :
  exists w',
    main stub_init steady 0 (source [] []) = Some (Raised w') /\
    rev (log w') =
      [ ECreate TrackerGOTURN; EVideoCapture "race_car.mp4"; ERead None;
        EIsOpened true; ENamedWindow "Object Tracker";
        EResizeWindow "Object Tracker" (1920 / 2) (1080 / 2);
        EPltFigure 20 10 ] /\
    count is_init (rev (log w')) = 0%nat /\
    count is_update (rev (log w')) = 0%nat /\
    count is_release (rev (log w')) = 0%nat /\
    count is_destroy (rev (log w')) = 0%nat.
Proof.
  apply (empty_file_raises_and_releases_nothing unit stub_init steady 0
           (source [] []));
    reflexivity.
Defined.

Lemma tracker_cannot_change_the_passes_witness :
  exists b1 w1' b2 w2',
    main stub_init steady 4 (source [raw 0; raw 1; raw 2] [-1; 113])
    = Some (Finished b1 w1') /\
    main stub_init lost 4 (source [raw 0; raw 1; raw 2] [-1; 113])
    = Some (Finished b2 w2') /\
    updated (rev (log w1')) = updated (rev (log w2')) /\
    count is_update (rev (log w1')) = count is_update (rev (log w2')) /\
    count is_sleep (rev (log w1')) = count is_sleep (rev (log w2')) /\
    frames w1' = frames w2' /\ keys w1' = keys w2'.
Proof.
  apply (tracker_cannot_change_the_passes unit unit stub_init steady stub_init lost
           4 (source [raw 0; raw 1; raw 2] [-1; 113])
           (source [raw 0; raw 1; raw 2] [-1; 113]) (raw 0) [raw 1; raw 2]);
    try reflexivity.
  - intros t f _. unfold drawable, fits_int. cbn. lia.
  - intros t f H. discriminate H.
  - simpl. lia.
Defined.
